(** * Vetratech mobile API: report aggregation, rendering and the
      [/full-report] endpoint

    Shallow embedding of [app/routers/reports.py] and [app/utils/pdf.py].

    Conventions of the model.
    - A BSON number is an exact integer ([Z]) in the main development; the
      payment pipeline is given a second time over the stored number type,
      integers or binary64 doubles, where the sums of fractional amounts are
      settled.
    - A timestamp is the integer number of milliseconds of a BSON date.
    - A Python [str] is held as the sequence of its UTF-8 bytes ([string]).
    - A collection is the list of its documents in natural (scan) order; the
      fields the pipelines read are the fields of the records below.
    - Each aggregation pipeline is the composition of its stages
      ([$match], [$unwind], [$group], [$project]) written as list functions. *)

From Stdlib Require Import ZArith NArith List String Ascii Bool Lia.
From Stdlib Require Import Permutation Sorted.
From Stdlib Require Import DecimalString.
From Stdlib.Strings Require Byte.
Import ListNotations.

Local Open Scope string_scope.
Local Open Scope list_scope.
Local Open Scope Z_scope.

(** ** Constants of [reports.py] *)

Definition EXCLUDED_CONTACTS : list string :=
  [ "د/ محمد صيدلية بيش";
    "عيادة الأنعام - الإدارة";
    "مؤسسة علي محمد غروي البيطرية";
    "صيدليه علي محمد غروي";
    "عيادة الانعام الظبية" ].

Definition DATABASE_MAP : list (string * string) :=
  [ ("khamis", "Elanam-KhamisMushit");
    ("baish", "Elanam-Baish");
    ("zapia", "Elanam-Zapia") ].

(** [dict.get]: the value of the first entry with that key, [None] without one. *)
Fixpoint dict_get (d : list (string * string)) (k : string) : option string :=
  match d with
  | [] => None
  | (k', v) :: rest => if String.eqb k' k then Some v else dict_get rest k
  end.

(** ** Documents *)

Module Doc.

(** A document of the [Payment] collection. *)
Record Payment := mkPayment {
  p_createdAt : Z;
  p_isDeleted : bool;
  p_method : string;
  p_isOutgoing : bool;
  p_amount : Z
}.

(** An element of a visit's [services] array. *)
Record Service := mkService {
  serviceName : string;
  price : Z;
  s_quantity : Z
}.

(** An element of a sale's [items] array. *)
Record Item := mkItem {
  productName : string;
  pricePerUnit : Z;
  quantity : Z;
  profit : Z
}.

(** A document of the [Sale] collection: clinic visits and retail sales live
    in the same collection. *)
Record Sale := mkSale {
  createdAt : Z;
  isDeleted : bool;
  isResolved : bool;
  contactName : string;
  services : list Service;
  items : list Item
}.

(** The database handle the three aggregation functions receive. *)
Record Database := mkDatabase {
  coll_Payment : list Payment;
  coll_Sale : list Sale
}.

End Doc.
Import Doc.

(** ** Stages shared by the pipelines *)

(** ["createdAt": {"$gte": start_date, "$lte": end_date}] *)
Definition in_range (start_date end_date t : Z) : bool :=
  (start_date <=? t) && (t <=? end_date).

(** [$unwind]: one output document per array element, in order; a document
    whose array is empty yields none. *)
Definition unwind {D E : Type} (arr : D -> list E) (docs : list D) : list (D * E) :=
  flat_map (fun d => map (fun e => (d, e)) (arr d)) docs.

(** [$sum] over the integer values of a stage's input. *)
Definition sumZ (l : list Z) : Z := fold_right Z.add 0 l.

(** [$in] / [$nin] membership among string literals. *)
Fixpoint str_in (s : string) (l : list string) : bool :=
  match l with
  | [] => false
  | x :: rest => String.eqb x s || str_in s rest
  end.

(** ** Payment report: [_get_payment_report] *)

Module PaymentReport.
(** One output document of the pipeline, after its [$project]. *)
Record t := mk {
  method : string;
  isOutgoing : bool;
  totalAmount : Z;
  transactionCount : Z
}.
End PaymentReport.

(** [$match]: creation time in range and [isDeleted] equal to [False]. *)
Definition payment_match (start_date end_date : Z) (p : Payment) : bool :=
  in_range start_date end_date (p_createdAt p) && negb (p_isDeleted p).

(** The [_id] of the [$group] stage: [{method, isOutgoing}]. *)
Definition group_id : Type := (string * bool)%type.

Definition payment_id (p : Payment) : group_id := (p_method p, p_isOutgoing p).

Definition group_id_eqb (a b : group_id) : bool :=
  String.eqb (fst a) (fst b) && Bool.eqb (snd a) (snd b).

(** A group under construction: its [_id] and its two accumulators. *)
Record PaymentGroup := mkGroup {
  g_id : group_id;
  g_totalAmount : Z;
  g_transactionCount : Z
}.

(** One input document reaches the [$group] stage: its group accumulates
    [$sum: "$amount"] and [$sum: 1]; a new [_id] opens a group. The data
    source does not fix the order of the groups; the model lists them in the
    order in which their first document arrives, and no property below
    depends on that order. *)
Fixpoint group_add (k : group_id) (amount : Z) (gs : list PaymentGroup)
  : list PaymentGroup :=
  match gs with
  | [] => [mkGroup k amount 1]
  | g :: rest =>
      if group_id_eqb (g_id g) k
      then mkGroup (g_id g) (g_totalAmount g + amount) (g_transactionCount g + 1) :: rest
      else g :: group_add k amount rest
  end.

Definition group_payments (docs : list Payment) : list PaymentGroup :=
  fold_left (fun gs p => group_add (payment_id p) (p_amount p) gs) docs [].

(** [$project]: [method] and [isOutgoing] out of [_id], the sums kept, [_id] dropped. *)
Definition project_payment (g : PaymentGroup) : PaymentReport.t :=
  PaymentReport.mk (fst (g_id g)) (snd (g_id g)) (g_totalAmount g) (g_transactionCount g).

Definition payment_pipeline (start_date end_date : Z) (docs : list Payment)
  : list PaymentReport.t :=
  map project_payment
      (group_payments (filter (payment_match start_date end_date) docs)).

Definition _get_payment_report (db : Database) (start_date end_date : Z)
  : list PaymentReport.t :=
  payment_pipeline start_date end_date (coll_Payment db).

(** ** Clinic report: [_get_clinic_report] *)

Module ClinicReport.
Record t := mk {
  totalRevenue : Z;
  largeServicesRevenue : Z;
  normalServicesRevenue : Z
}.
End ClinicReport.

(** [$match]: in range, [isDeleted] equal to [False], [isResolved] equal to [True]. *)
Definition clinic_match (start_date end_date : Z) (v : Sale) : bool :=
  in_range start_date end_date (createdAt v) && negb (isDeleted v) && isResolved v.

(** [$regexMatch] with a regex free of metacharacters: the pattern occurs
    somewhere in the input. *)
Fixpoint contains (pat s : string) : bool :=
  String.prefix pat s ||
  match s with
  | EmptyString => false
  | String _ s' => contains pat s'
  end.

(** The two [$addFields] of the clinic pipeline. *)
Definition isLarge (svc : Service) : bool := contains "لارج" (serviceName svc).

Definition serviceRevenue (svc : Service) : Z := price svc * s_quantity svc.

(** [$group] with [_id: None]: no output document for an empty input, one
    document with the three sums otherwise. *)
Definition group_clinic (lines : list (Sale * Service)) : list ClinicReport.t :=
  match lines with
  | [] => []
  | _ :: _ =>
      [ ClinicReport.mk
          (sumZ (map (fun l => serviceRevenue (snd l)) lines))
          (sumZ (map (fun l => if isLarge (snd l) then serviceRevenue (snd l) else 0) lines))
          (sumZ (map (fun l => if isLarge (snd l) then 0 else serviceRevenue (snd l)) lines)) ]
  end.

Definition clinic_pipeline (start_date end_date : Z) (docs : list Sale)
  : list ClinicReport.t :=
  group_clinic (unwind services (filter (clinic_match start_date end_date) docs)).

Definition clinic_default : ClinicReport.t := ClinicReport.mk 0 0 0.

(** [result[0] if result else {...}]; the [_id: None] key that the pipeline's
    own document also carries is not part of the record. *)
Definition _get_clinic_report (db : Database) (start_date end_date : Z)
  : ClinicReport.t :=
  match clinic_pipeline start_date end_date (coll_Sale db) with
  | r :: _ => r
  | [] => clinic_default
  end.

(** ** Sales report: [_get_sales_report] *)

Module SalesReport.
(** An element pushed on [topProducts]. *)
Record product := mkProduct {
  productName : string;
  revenue : Z;
  profit : Z
}.

Record t := mk {
  totalRevenue : Z;
  totalProfit : Z;
  topProducts : list product
}.
End SalesReport.

(** [$match]: in range, [contactName] not among the excluded, [isDeleted]
    equal to [False]. *)
Definition sales_match (start_date end_date : Z) (s : Sale) : bool :=
  in_range start_date end_date (createdAt s)
  && negb (str_in (contactName s) EXCLUDED_CONTACTS)
  && negb (isDeleted s).

Definition itemRevenue (it : Item) : Z := pricePerUnit it * quantity it.

(** The document [$push] appends for one unwound line. *)
Definition pushed (l : Sale * Item) : SalesReport.product :=
  SalesReport.mkProduct (Doc.productName (snd l)) (itemRevenue (snd l)) (Doc.profit (snd l)).

(** The line-items collected from the filtered sales, in encounter order. *)
Definition sales_lines (start_date end_date : Z) (docs : list Sale)
  : list (Sale * Item) :=
  unwind items (filter (sales_match start_date end_date) docs).

(** Descending order of revenue: every element is at least as large as all
    later ones. *)
Definition revenue_desc (a b : SalesReport.product) : Prop :=
  SalesReport.revenue b <= SalesReport.revenue a.

(** [$sortArray] with [sortBy: {revenue: -1}]. The operator belongs to the
    data source; the pipeline relies on its contract alone: the output holds
    the elements of the input, in descending order of the key. What happens
    among equal keys is left to the operator. *)
Class SortArray := {
  sortArray : list SalesReport.product -> list SalesReport.product;
  sortArray_perm : forall l, Permutation (sortArray l) l;
  sortArray_sorted : forall l, StronglySorted revenue_desc (sortArray l)
}.

Section Sales.
Context {sorter : SortArray}.

(** [$group] with [_id: None] over the unwound lines. *)
Definition group_sales (lines : list (Sale * Item)) : list SalesReport.t :=
  match lines with
  | [] => []
  | _ :: _ =>
      [ SalesReport.mk
          (sumZ (map (fun l => itemRevenue (snd l)) lines))
          (sumZ (map (fun l => Doc.profit (snd l)) lines))
          (map pushed lines) ]
  end.

(** [$project]: the totals kept, [topProducts] sorted then cut by [$slice] to
    its first 5 elements. *)
Definition project_sales (g : SalesReport.t) : SalesReport.t :=
  SalesReport.mk
    (SalesReport.totalRevenue g)
    (SalesReport.totalProfit g)
    (firstn 5 (sortArray (SalesReport.topProducts g))).

Definition sales_pipeline (start_date end_date : Z) (docs : list Sale)
  : list SalesReport.t :=
  map project_sales (group_sales (sales_lines start_date end_date docs)).

Definition sales_default : SalesReport.t := SalesReport.mk 0 0 [].

Definition _get_sales_report (db : Database) (start_date end_date : Z)
  : SalesReport.t :=
  match sales_pipeline start_date end_date (coll_Sale db) with
  | r :: _ => r
  | [] => sales_default
  end.

End Sales.

(** ** Two sort operators that meet the contract

    Insertion into a list already in descending order. The new element comes
    from earlier in the input than the elements of the list. With
    [after_ties = false] it stops in front of the first element that is not
    larger, so equal keys keep their input order; with [after_ties = true] it
    also passes the elements of equal key, so equal keys come out reversed. *)
Fixpoint insert_desc (after_ties : bool) (x : SalesReport.product)
  (l : list SalesReport.product) : list SalesReport.product :=
  match l with
  | [] => [x]
  | y :: rest =>
      if (if after_ties
          then SalesReport.revenue y <? SalesReport.revenue x
          else SalesReport.revenue y <=? SalesReport.revenue x)
      then x :: y :: rest
      else y :: insert_desc after_ties x rest
  end.

Definition isort_desc (after_ties : bool) (l : list SalesReport.product)
  : list SalesReport.product :=
  fold_right (insert_desc after_ties) [] l.

(** ** Python values and exceptions the endpoint meets *)

Inductive exn : Type :=
| HTTPException (status_code : Z) (detail : string)
| AttributeError (msg : string)
| TTFError (file : string)
| DataSourceError (msg : string)
| LayoutError (msg : string).

Definition dquote : string := String (ascii_of_nat 34) EmptyString.

(** [str(e)] *)
Definition str_exn (e : exn) : string :=
  match e with
  | HTTPException _ detail => detail
  | AttributeError msg => msg
  | TTFError file => "Can't open file " ++ dquote ++ file ++ dquote
  | DataSourceError msg => msg
  | LayoutError msg => msg
  end.

(** The two kinds of object that [generate_full_report_pdf] and its caller
    pass around under the name [pdf_bytes]. *)
Inductive pyobj : Type :=
| PyBytes (b : list Byte.byte)
| PyStr (s : string).

(** [bytes.decode('latin1')]: byte [n] becomes code point [n]. *)
Definition latin1 (b : list Byte.byte) : string :=
  string_of_list_ascii (map ascii_of_byte b).

(** [obj.decode('latin1')]: a method of [bytes]; a [str] has no such attribute. *)
Definition py_decode_latin1 (o : pyobj) : exn + string :=
  match o with
  | PyBytes b => inr (latin1 b)
  | PyStr _ => inl (AttributeError "'str' object has no attribute 'decode'")
  end.

(** ** [base64.b64encode] *)

Definition b64_alphabet : string :=
  "ABCDEFGHIJKLMNOPQRSTUVWXYZabcdefghijklmnopqrstuvwxyz0123456789+/".

Definition b64_pad : Byte.byte := byte_of_ascii "="%char.

(** The character of a 6-bit group. *)
Definition b64_digit (i : N) : Byte.byte :=
  match String.get (N.to_nat (N.land i 63)) b64_alphabet with
  | Some c => byte_of_ascii c
  | None => b64_pad
  end.

(** Three bytes make four 6-bit groups; a last group of one or two bytes is
    filled with zero bits and padded with ['=']. *)
Fixpoint b64encode (bs : list Byte.byte) : list Byte.byte :=
  match bs with
  | [] => []
  | [a] =>
      let n := N.shiftl (Byte.to_N a) 16 in
      [b64_digit (N.shiftr n 18); b64_digit (N.shiftr n 12); b64_pad; b64_pad]
  | [a; b] =>
      let n := N.lor (N.shiftl (Byte.to_N a) 16) (N.shiftl (Byte.to_N b) 8) in
      [b64_digit (N.shiftr n 18); b64_digit (N.shiftr n 12);
       b64_digit (N.shiftr n 6); b64_pad]
  | a :: b :: c :: rest =>
      let n := N.lor (N.lor (N.shiftl (Byte.to_N a) 16) (N.shiftl (Byte.to_N b) 8))
                     (Byte.to_N c) in
      b64_digit (N.shiftr n 18) :: b64_digit (N.shiftr n 12)
      :: b64_digit (N.shiftr n 6) :: b64_digit n :: b64encode rest
  end.

(** ** The document renderer: [app/utils/pdf.py] *)

(** A string handed to the layout engine, with the way it was obtained:
    [Plain s] is [s] as the code composed it, [Shaped s] is the result of
    [_ar(s)], that is of [get_display(arabic_reshaper.reshape(s))] applied to
    the logical text [s]. Both library calls are external. *)
Inductive text : Type :=
| Plain (s : string)
| Shaped (logical : string).

Definition _ar (t : string) : text := Shaped t.

Inductive style : Type := ArabicTitle | ArabicHeader | ArabicNormal.

(** The flowables appended to [elements]. Of a table the cell data and
    [repeatRows] are kept; column widths and [TableStyle] commands are not. *)
Inductive flowable : Type :=
| Paragraph (t : text) (st : style)
| Spacer (width height : Z)
| PageBreak
| Table (data : list (list text)) (repeatRows : Z).

(** [str(n)] of an integer. *)
Definition str_int (n : Z) : string := NilZero.string_of_int (Z.to_int n).

(** [f"{x:.2f}"] of an integer value that a double holds exactly: its
    digits and two zero decimals. *)
Definition fmt2 (x : Z) : string := str_int x ++ ".00".

(** [f"{x:.2f} SAR"]: the number, then the literal currency code. *)
Definition money (x : Z) : string := fmt2 x ++ " SAR".

Definition payment_row (item : PaymentReport.t) : list text :=
  [ _ar (if PaymentReport.isOutgoing item then "صادر" else "وارد");
    _ar (if String.eqb (PaymentReport.method item) "network" then "شبكة" else "كاش");
    Plain (money (PaymentReport.totalAmount item));
    Plain (str_int (PaymentReport.transactionCount item)) ].

Definition payment_table (data : list PaymentReport.t) : list (list text) :=
  [ _ar "النوع"; _ar "الطريقة"; _ar "المبلغ"; _ar "عدد المعاملات" ]
  :: map payment_row data.

Definition _add_payment_report (elements : list flowable) (data : list PaymentReport.t)
  : list flowable :=
  elements
  ++ [ Paragraph (_ar "تقرير المدفوعات") ArabicHeader;
       Spacer 1 12;
       Table (payment_table data) 1 ].

Definition clinic_table (data : ClinicReport.t) : list (list text) :=
  [ [ _ar "الإجمالي"; Plain (money (ClinicReport.totalRevenue data)) ];
    [ _ar "خدمات لارج"; Plain (money (ClinicReport.largeServicesRevenue data)) ];
    [ _ar "خدمات عادية"; Plain (money (ClinicReport.normalServicesRevenue data)) ] ].

Definition _add_clinic_report (elements : list flowable) (data : ClinicReport.t)
  : list flowable :=
  elements
  ++ [ Paragraph (_ar "تقرير العيادة") ArabicHeader;
       Spacer 1 12;
       Table (clinic_table data) 0 ].

Definition product_row (product : SalesReport.product) : list text :=
  [ _ar (SalesReport.productName product);
    Plain (money (SalesReport.revenue product));
    Plain (money (SalesReport.profit product)) ].

Definition products_table (products : list SalesReport.product) : list (list text) :=
  [ _ar "المنتج"; _ar "الإيراد"; _ar "الربح" ] :: map product_row products.

Definition revenue_line (data : SalesReport.t) : flowable :=
  Paragraph (_ar ("إجمالي الإيرادات: " ++ money (SalesReport.totalRevenue data))) ArabicNormal.

Definition profit_line (data : SalesReport.t) : flowable :=
  Paragraph (_ar ("إجمالي الأرباح: " ++ money (SalesReport.totalProfit data))) ArabicNormal.

Definition _add_sales_report (elements : list flowable) (data : SalesReport.t)
  : list flowable :=
  elements
  ++ [ Paragraph (_ar "تقرير المبيعات والأرباح") ArabicHeader;
       Spacer 1 12;
       revenue_line data;
       profit_line data;
       Spacer 1 12 ]
  ++ match SalesReport.topProducts data with
     | [] => []
     | _ :: _ =>
         [ Paragraph (_ar "أفضل المنتجات:") ArabicNormal;
           Table (products_table (SalesReport.topProducts data)) 1 ]
     end.

(** ** Effects: the world a request runs in *)

(** What a request does to the outside, in order. *)
Inductive event : Type :=
| EvConnect (db_name : string)
| EvAggregate (collection : string)
| EvRegisterFont (name file : string)
| EvBuild
| EvClose.

(** The mutable state around a request: what happened so far, the global
    font registry of the PDF library, and [db.client]. *)
Record World := mkWorld {
  trace : list event;
  fonts : list (string * string);
  client : option string
}.

(** The three aggregation queries of a request. *)
Inductive query : Type := PaymentQuery | ClinicQuery | SalesQuery.

(** The capabilities the code consumes and does not define. *)
Record Env := mkEnv {
  (** the error that [MongoClient(uri)] raises, if it raises *)
  connect_error : option exn;
  (** what a query against a database name sees, or the error it raises; each
      of the three queries has its own answer *)
  store : string -> query -> exn + Database;
  (** whether [TTFont(name, file)] can open [file] *)
  font_file_readable : string -> bool;
  (** [datetime.strftime('%Y-%m-%d')] *)
  strftime_ymd : Z -> string;
  (** [doc.build(elements)] then [buffer.getvalue()], under a font registry *)
  doc_build : list (string * string) -> list flowable -> exn + list Byte.byte
}.

(** A computation that may raise and that changes the world either way. *)
Definition M (A : Type) : Type := World -> (exn + A) * World.

Definition ret {A} (a : A) : M A := fun w => (inr a, w).

Definition raise {A} (e : exn) : M A := fun w => (inl e, w).

Definition bind {A B} (m : M A) (k : A -> M B) : M B :=
  fun w =>
    match m w with
    | (inr a, w') => k a w'
    | (inl e, w') => (inl e, w')
    end.

Notation "x <- m ;; k" := (bind m (fun x => k))
  (at level 61, m at next level, right associativity).
Notation "m ;;; k" := (bind m (fun _ => k))
  (at level 61, right associativity).

(** [try: m except ...: h] *)
Definition try_except {A} (m : M A) (h : exn -> M A) : M A :=
  fun w =>
    match m w with
    | (inr a, w') => (inr a, w')
    | (inl e, w') => h e w'
    end.

(** [try: m finally: f] *)
Definition try_finally {A} (m : M A) (f : M unit) : M A :=
  fun w =>
    match m w with
    | (r, w') =>
        match f w' with
        | (inr _, w'') => (r, w'')
        | (inl e, w'') => (inl e, w'')
        end
    end.

Definition lift {A} (r : exn + A) : M A := fun w => (r, w).

Definition emit (e : event) : M unit :=
  fun w => (inr tt, mkWorld (trace w ++ [e]) (fonts w) (client w)).

(** ** [app/database.py] *)

(** [db.connect(db_name)]: [MongoClient(self.uri)] is called. When it raises,
    [self.client] is not assigned and keeps what it held; otherwise the new
    client is kept and the named database is returned. *)
Definition db_connect (env : Env) (db_name : string) : M string :=
  fun w =>
    match connect_error env with
    | Some e => (inl e, mkWorld (trace w ++ [EvConnect db_name]) (fonts w) (client w))
    | None =>
        (inr db_name, mkWorld (trace w ++ [EvConnect db_name]) (fonts w) (Some db_name))
    end.

(** [db.close()]: closes the client if there is one. *)
Definition db_close : M unit :=
  fun w =>
    match client w with
    | Some _ => emit EvClose w
    | None => (inr tt, w)
    end.

(** [await db[collection].aggregate(pipeline).to_list(None)] against the
    connected database: the query is issued, then fails or sees the data. *)
Definition aggregate {A} (env : Env) (database : string) (q : query)
  (collection : string) (pipeline : Database -> A) : M A :=
  emit (EvAggregate collection) ;;;
  d <- lift (store env database q) ;;
  ret (pipeline d).

(** ** Fonts and the PDF: [_setup_arabic_font], [generate_full_report_pdf] *)

(** [pdfmetrics.registerFont(TTFont(name, file))] *)
Definition registerFont_TTFont (env : Env) (name file : string) : M unit :=
  if font_file_readable env file
  then fun w => (inr tt, mkWorld (trace w ++ [EvRegisterFont name file])
                                 ((name, file) :: fonts w) (client w))
  else raise (TTFError file).

Definition _setup_arabic_font (env : Env) : M unit :=
  try_except
    (registerFont_TTFont env "Arabic" "assets/fonts/arabic.ttf")
    (fun _ => registerFont_TTFont env "Arabic" "Arial").

(** The list [elements] as it stands when [doc.build] is called. *)
Definition report_elements (env : Env)
  (payment_data : list PaymentReport.t) (clinic_data : ClinicReport.t)
  (sales_data : SalesReport.t) (start_date end_date : Z) (db_name : string)
  : list flowable :=
  let elements := [] in
  let elements := elements ++ [Paragraph (_ar "تقرير العيادة البيطرية الشامل") ArabicTitle] in
  let elements := elements ++ [Spacer 1 24] in
  let elements := elements ++ [Paragraph (_ar ("القاعدة: " ++ db_name)) ArabicNormal] in
  let elements := elements ++
    [Paragraph (_ar ("الفترة من " ++ strftime_ymd env start_date
                     ++ " إلى " ++ strftime_ymd env end_date)) ArabicNormal] in
  let elements := elements ++ [PageBreak] in
  let elements := _add_payment_report elements payment_data in
  let elements := elements ++ [PageBreak] in
  let elements := _add_clinic_report elements clinic_data in
  let elements := elements ++ [PageBreak] in
  _add_sales_report elements sales_data.

(** [doc.build(elements)]; [pdf_bytes = buffer.getvalue()] *)
Definition build (env : Env) (elements : list flowable) : M (list Byte.byte) :=
  emit EvBuild ;;;
  fun w => (doc_build env (fonts w) elements, w).

(** Annotated [-> bytes]; what it returns is
    [base64.b64encode(pdf_bytes).decode('latin1')]. *)
Definition generate_full_report_pdf (env : Env)
  (payment_data : list PaymentReport.t) (clinic_data : ClinicReport.t)
  (sales_data : SalesReport.t) (start_date end_date : Z) (db_name : string)
  : M pyobj :=
  _setup_arabic_font env ;;;
  pdf_bytes <- build env (report_elements env payment_data clinic_data sales_data
                                          start_date end_date db_name) ;;
  ret (PyStr (latin1 (b64encode pdf_bytes))).

(** ** The endpoint: [generate_full_report] *)

Record ReportRequest := mkRequest {
  db_option : string;
  start_date : Z;
  end_date : Z
}.

Record FullReportResponse := mkResponse {
  success : bool;
  payment_report : list PaymentReport.t;
  clinic_report : ClinicReport.t;
  sales_report : SalesReport.t;
  pdf_bytes : string
}.

(** Truth value of what [DATABASE_MAP.get] returned. *)
Definition truthy (v : option string) : bool :=
  match v with
  | None => false
  | Some s => negb (String.eqb s EmptyString)
  end.

Section Endpoint.
Context {sorter : SortArray}.
Variable env : Env.

(** The body of the [try]. *)
Definition full_report_body (request : ReportRequest) : M FullReportResponse :=
  match dict_get DATABASE_MAP (db_option request) with
  | Some db_name =>
      if truthy (Some db_name) then
        database <- db_connect env db_name ;;
        payment <- aggregate env database PaymentQuery "Payment"
                     (fun d => _get_payment_report d (start_date request) (end_date request)) ;;
        clinic <- aggregate env database ClinicQuery "Sale"
                     (fun d => _get_clinic_report d (start_date request) (end_date request)) ;;
        sales <- aggregate env database SalesQuery "Sale"
                     (fun d => _get_sales_report d (start_date request) (end_date request)) ;;
        pdf <- generate_full_report_pdf env payment clinic sales
                     (start_date request) (end_date request) db_name ;;
        decoded <- lift (py_decode_latin1 pdf) ;;
        ret (mkResponse true payment clinic sales decoded)
      else raise (HTTPException 400 "Invalid database option")
  | None => raise (HTTPException 400 "Invalid database option")
  end.

(** [except HTTPException: raise] and
    [except Exception as e: raise HTTPException(500, f"Server error: {str(e)}")] *)
Definition full_report_handler (e : exn) : M FullReportResponse :=
  match e with
  | HTTPException _ _ => raise e
  | _ => raise (HTTPException 500 ("Server error: " ++ str_exn e))
  end.

Definition generate_full_report (request : ReportRequest) : M FullReportResponse :=
  try_finally
    (try_except (full_report_body request) full_report_handler)
    db_close.

End Endpoint.

(** * Properties *)

(** ** Sums, ranges and the grouping stage *)

Lemma sumZ_app (l1 l2 : list Z) : sumZ (l1 ++ l2) = sumZ l1 + sumZ l2.
Proof.
  induction l1 as [|x l1 IH]; simpl; [reflexivity | rewrite IH; lia].
Qed.

Lemma in_range_spec (s e t : Z) : in_range s e t = true <-> s <= t <= e.
Proof.
  unfold in_range. rewrite andb_true_iff, !Z.leb_le. tauto.
Qed.

Lemma group_id_eqb_eq (a b : group_id) : group_id_eqb a b = true <-> a = b.
Proof.
  destruct a as [m1 o1], b as [m2 o2]. unfold group_id_eqb. simpl.
  rewrite andb_true_iff, String.eqb_eq, Bool.eqb_true_iff.
  split; [intros [-> ->]; reflexivity | intros H; inversion H; auto].
Qed.

Lemma group_id_eqb_refl (a : group_id) : group_id_eqb a a = true.
Proof. apply group_id_eqb_eq. reflexivity. Qed.

Lemma group_id_eqb_neq (a b : group_id) : group_id_eqb a b = false <-> a <> b.
Proof.
  rewrite <- group_id_eqb_eq. destruct (group_id_eqb a b); split; congruence.
Qed.

Lemma NoDup_snoc {A : Type} (l : list A) (x : A) :
  NoDup l -> ~ In x l -> NoDup (l ++ [x]).
Proof.
  induction l as [|y l IH]; simpl; intros Hnd Hnin.
  - constructor; [tauto | constructor].
  - inversion Hnd as [|? ? Hy Hl]; subst. constructor.
    + intros Hin. apply in_app_or in Hin. destruct Hin as [Hin | [-> | []]]; tauto.
    + apply IH; tauto.
Qed.

(** The documents of a list that fall in the group [k]. *)
Definition members (k : group_id) (docs : list Payment) : list Payment :=
  filter (fun p => group_id_eqb (payment_id p) k) docs.

Lemma members_snoc (k : group_id) (docs : list Payment) (p : Payment) :
  members k (docs ++ [p])
  = members k docs ++ (if group_id_eqb (payment_id p) k then [p] else []).
Proof.
  unfold members. rewrite filter_app. reflexivity.
Qed.

Lemma members_nil_iff (k : group_id) (docs : list Payment) :
  members k docs = [] <-> forall p, In p docs -> payment_id p <> k.
Proof.
  unfold members. induction docs as [|d docs IH]; simpl.
  - split; [intros _ p [] | reflexivity].
  - destruct (group_id_eqb (payment_id d) k) eqn:E.
    + split; [discriminate |].
      intros H. apply group_id_eqb_eq in E. exfalso. apply (H d); auto.
    + rewrite IH. apply group_id_eqb_neq in E.
      split; [intros H p [<- | Hp]; auto | intros H p Hp; apply H; auto].
Qed.

(** The identifiers after one more document: unchanged when its group is
    open already, extended at the end otherwise. *)
Lemma group_add_ids (k : group_id) (a : Z) (gs : list PaymentGroup) :
  (In k (map g_id gs) /\ map g_id (group_add k a gs) = map g_id gs)
  \/ (~ In k (map g_id gs) /\ map g_id (group_add k a gs) = map g_id gs ++ [k]).
Proof.
  induction gs as [|g gs IH]; simpl.
  - right. split; [tauto | reflexivity].
  - destruct (group_id_eqb (g_id g) k) eqn:E.
    + left. apply group_id_eqb_eq in E. simpl. auto.
    + apply group_id_eqb_neq in E. simpl.
      destruct IH as [[Hin Heq] | [Hnin Heq]]; rewrite Heq.
      * left. auto.
      * right. split; [intros [H | H]; auto | reflexivity].
Qed.

(** Where a group of the new list comes from. *)
Lemma group_add_In (k : group_id) (a : Z) (gs : list PaymentGroup) (g' : PaymentGroup) :
  NoDup (map g_id gs) ->
  In g' (group_add k a gs) ->
  (In g' gs /\ g_id g' <> k)
  \/ (exists g, In g gs /\ g_id g = k /\
         g' = mkGroup k (g_totalAmount g + a) (g_transactionCount g + 1))
  \/ (~ In k (map g_id gs) /\ g' = mkGroup k a 1).
Proof.
  induction gs as [|g gs IH]; simpl; intros Hnd Hin.
  - destruct Hin as [<- | []]. right. right. split; [tauto | reflexivity].
  - inversion Hnd as [|? ? Hfresh Hnd']; subst.
    destruct (group_id_eqb (g_id g) k) eqn:E.
    + apply group_id_eqb_eq in E. destruct Hin as [<- | Hin].
      * right. left. exists g. rewrite E. auto.
      * left. split; [auto |]. intros Hk. apply Hfresh.
        rewrite E, <- Hk. apply in_map. exact Hin.
    + apply group_id_eqb_neq in E. destruct Hin as [<- | Hin].
      * left. auto.
      * destruct (IH Hnd' Hin) as [[H1 H2] | [[g0 [H1 [H2 H3]]] | [H1 H2]]].
        -- left. auto.
        -- right. left. exists g0. auto.
        -- right. right. split; [intros [H | H]; auto | exact H2].
Qed.

(** What the [$group] stage holds after the documents [seen]: one group per
    identifier met, each with the sum and the count of its documents. *)
Record grouped (seen : list Payment) (gs : list PaymentGroup) : Prop := {
  grouped_nodup : NoDup (map g_id gs);
  grouped_sums : forall g, In g gs ->
      g_totalAmount g = sumZ (map p_amount (members (g_id g) seen))
      /\ g_transactionCount g = Z.of_nat (List.length (members (g_id g) seen));
  grouped_ids : forall k, In k (map g_id gs) <-> exists p, In p seen /\ payment_id p = k
}.

Lemma grouped_nil : grouped [] [].
Proof.
  split; simpl.
  - constructor.
  - intros g [].
  - intros k. split; [intros [] | intros [p [[] _]]].
Qed.

Lemma grouped_step (seen : list Payment) (gs : list PaymentGroup) (p : Payment) :
  grouped seen gs ->
  grouped (seen ++ [p]) (group_add (payment_id p) (p_amount p) gs).
Proof.
  intros [Hnd Hsum Hids].
  pose proof (group_add_ids (payment_id p) (p_amount p) gs) as Hk.
  split.
  - destruct Hk as [[_ ->] | [Hnin ->]]; [exact Hnd |].
    apply NoDup_snoc; assumption.
  - intros g' Hin. rewrite members_snoc.
    destruct (group_add_In _ _ _ _ Hnd Hin)
      as [[H1 H2] | [[g [H1 [H2 H3]]] | [H1 H2]]].
    + assert (E : group_id_eqb (payment_id p) (g_id g') = false)
        by (apply group_id_eqb_neq; congruence).
      rewrite E, app_nil_r. apply Hsum. exact H1.
    + subst g'. simpl. rewrite group_id_eqb_refl.
      rewrite map_app, sumZ_app, length_app, Nat2Z.inj_add. simpl.
      destruct (Hsum g H1) as [Ht Hc]. rewrite H2 in Ht, Hc.
      rewrite Ht, Hc. lia.
    + subst g'. simpl. rewrite group_id_eqb_refl.
      assert (E : members (payment_id p) seen = []).
      { apply members_nil_iff. intros q Hq Heq. apply H1, Hids. eauto. }
      rewrite E. simpl. lia.
  - intros k. split.
    + intros Hin. destruct Hk as [[_ Heq] | [_ Heq]]; rewrite Heq in Hin.
      * apply Hids in Hin. destruct Hin as [q [Hq <-]].
        exists q. split; [apply in_or_app; auto | reflexivity].
      * apply in_app_or in Hin. destruct Hin as [Hin | [<- | []]].
        -- apply Hids in Hin. destruct Hin as [q [Hq <-]].
           exists q. split; [apply in_or_app; auto | reflexivity].
        -- exists p. split; [apply in_or_app; simpl; auto | reflexivity].
    + intros [q [Hq <-]]. apply in_app_or in Hq.
      destruct Hq as [Hq | [<- | []]].
      * assert (In (payment_id q) (map g_id gs)) by (apply Hids; eauto).
        destruct Hk as [[_ ->] | [_ ->]]; [| apply in_or_app]; auto.
      * destruct Hk as [[H ->] | [_ ->]]; [exact H |].
        apply in_or_app. simpl. auto.
Qed.

Lemma group_payments_grouped (docs : list Payment) :
  grouped docs (group_payments docs).
Proof.
  unfold group_payments.
  induction docs as [|p docs IH] using rev_ind.
  - exact grouped_nil.
  - rewrite fold_left_app. simpl. apply grouped_step. exact IH.
Qed.

(** ** Payment summary *)

(** The grouping key of an output row. *)
Definition row_id (r : PaymentReport.t) : group_id :=
  (PaymentReport.method r, PaymentReport.isOutgoing r).

Lemma row_id_project (g : PaymentGroup) : row_id (project_payment g) = g_id g.
Proof. unfold row_id, project_payment. simpl. destruct (g_id g); reflexivity. Qed.

Lemma payment_match_spec (s e : Z) (p : Payment) :
  payment_match s e p = true
  <-> s <= p_createdAt p <= e /\ p_isDeleted p = false.
Proof.
  unfold payment_match.
  rewrite andb_true_iff, in_range_spec, negb_true_iff. tauto.
Qed.

(** X26. With integer amounts, the payment summary has exactly one row per
    (method, isOutgoing) pair met among the records that are not deleted and
    were created within the inclusive range: the keys of the rows are pairwise distinct, a pair is the
    key of a row if and only if such a record carries it, and in each row
    totalAmount is the sum of the amounts of the records of its group and
    transactionCount is their number. *)
Theorem payment_report_one_row_per_group (db : Database) (s e : Z) :
  let matched := filter (payment_match s e) (coll_Payment db) in
  let rows := _get_payment_report db s e in
  (forall p, In p matched <->
             In p (coll_Payment db) /\ s <= p_createdAt p <= e /\ p_isDeleted p = false)
  /\ NoDup (map row_id rows)
  /\ (forall k, In k (map row_id rows) <-> exists p, In p matched /\ payment_id p = k)
  /\ (forall r, In r rows ->
        PaymentReport.totalAmount r = sumZ (map p_amount (members (row_id r) matched))
        /\ PaymentReport.transactionCount r
           = Z.of_nat (List.length (members (row_id r) matched))).
Proof.
  intros matched rows.
  pose proof (group_payments_grouped matched) as [Hnd Hsum Hids].
  assert (Hmap : map row_id rows = map g_id (group_payments matched)).
  { unfold rows, _get_payment_report, payment_pipeline. fold matched.
    rewrite map_map. apply map_ext. exact row_id_project. }
  split; [| split; [| split]].
  - intros p. unfold matched. rewrite filter_In, payment_match_spec. tauto.
  - rewrite Hmap. exact Hnd.
  - intros k. rewrite Hmap. apply Hids.
  - intros r Hr. unfold rows, _get_payment_report, payment_pipeline in Hr.
    fold matched in Hr. apply in_map_iff in Hr. destruct Hr as [g [<- Hg]].
    rewrite row_id_project. simpl. apply Hsum. exact Hg.
Qed.

(** ** Clinic summary *)

Lemma sum_split {A : Type} (f : A -> Z) (c : A -> bool) (l : list A) :
  sumZ (map (fun x => if c x then f x else 0) l)
  + sumZ (map (fun x => if c x then 0 else f x) l)
  = sumZ (map f l).
Proof.
  induction l as [|x l IH]; simpl; [reflexivity |].
  destruct (c x); lia.
Qed.

Lemma sum_cond_filter {A : Type} (f : A -> Z) (c : A -> bool) (l : list A) :
  sumZ (map (fun x => if c x then f x else 0) l) = sumZ (map f (filter c l)).
Proof.
  induction l as [|x l IH]; simpl; [reflexivity |].
  destruct (c x); simpl; lia.
Qed.

(** The service lines that reach the [$group] stage of the clinic pipeline. *)
Definition clinic_lines (s e : Z) (docs : list Sale) : list (Sale * Service) :=
  unwind services (filter (clinic_match s e) docs).

Lemma clinic_report_sums (db : Database) (s e : Z) :
  let lines := clinic_lines s e (coll_Sale db) in
  _get_clinic_report db s e
  = ClinicReport.mk
      (sumZ (map (fun l => serviceRevenue (snd l)) lines))
      (sumZ (map (fun l => if isLarge (snd l) then serviceRevenue (snd l) else 0) lines))
      (sumZ (map (fun l => if isLarge (snd l) then 0 else serviceRevenue (snd l)) lines)).
Proof.
  intros lines. unfold _get_clinic_report, clinic_pipeline. fold (clinic_lines s e (coll_Sale db)).
  fold lines. destruct lines; reflexivity.
Qed.

(** C2. In the clinic summary largeServicesRevenue + normalServicesRevenue =
    totalRevenue, for every content of the collection and every range: the
    total is the sum of price * quantity over all service lines, the large
    part is that sum over the lines whose name holds the marker, the normal
    part is that sum over the other lines. *)
Theorem clinic_large_plus_normal_is_total (db : Database) (s e : Z) :
  let r := _get_clinic_report db s e in
  let lines := map snd (clinic_lines s e (coll_Sale db)) in
  ClinicReport.largeServicesRevenue r + ClinicReport.normalServicesRevenue r
  = ClinicReport.totalRevenue r
  /\ ClinicReport.totalRevenue r = sumZ (map serviceRevenue lines)
  /\ ClinicReport.largeServicesRevenue r
     = sumZ (map serviceRevenue (filter isLarge lines))
  /\ ClinicReport.normalServicesRevenue r
     = sumZ (map serviceRevenue (filter (fun svc => negb (isLarge svc)) lines)).
Proof.
  intros r lines. unfold r. rewrite clinic_report_sums. simpl.
  unfold lines. set (ls := clinic_lines s e (coll_Sale db)).
  split; [| split; [| split]].
  - apply (sum_split (fun l => serviceRevenue (snd l)) (fun l => isLarge (snd l))).
  - rewrite map_map. reflexivity.
  - rewrite <- (sum_cond_filter serviceRevenue isLarge), map_map. reflexivity.
  - rewrite <- (sum_cond_filter serviceRevenue (fun svc => negb (isLarge svc))), map_map.
    f_equal. apply map_ext. intros l. destruct (isLarge (snd l)); reflexivity.
Qed.

(** ** The two sort operators meet the contract of [$sortArray] *)

Lemma insert_desc_perm (after_ties : bool) (x : SalesReport.product)
  (l : list SalesReport.product) :
  Permutation (insert_desc after_ties x l) (x :: l).
Proof.
  induction l as [|y l IH]; simpl.
  - apply Permutation_refl.
  - match goal with |- context [if ?c then _ else _] => destruct c end.
    + apply Permutation_refl.
    + apply Permutation_trans with (y :: x :: l).
      * apply perm_skip. exact IH.
      * apply perm_swap.
Qed.

Lemma isort_desc_perm (after_ties : bool) (l : list SalesReport.product) :
  Permutation (isort_desc after_ties l) l.
Proof.
  unfold isort_desc. induction l as [|x l IH]; simpl.
  - apply perm_nil.
  - apply Permutation_trans with (x :: fold_right (insert_desc after_ties) [] l).
    + apply insert_desc_perm.
    + apply perm_skip. exact IH.
Qed.

Lemma revenue_desc_trans (a b c : SalesReport.product) :
  revenue_desc a b -> revenue_desc b c -> revenue_desc a c.
Proof. unfold revenue_desc. lia. Qed.

Lemma insert_desc_sorted (after_ties : bool) (x : SalesReport.product)
  (l : list SalesReport.product) :
  StronglySorted revenue_desc l ->
  StronglySorted revenue_desc (insert_desc after_ties x l).
Proof.
  induction l as [|y l IH]; simpl; intros Hs.
  - constructor; [constructor | constructor].
  - inversion Hs as [|? ? Hl Hy]; subst.
    assert (Hcase :
      (if after_ties
       then SalesReport.revenue y <? SalesReport.revenue x
       else SalesReport.revenue y <=? SalesReport.revenue x) = true
      -> revenue_desc x y).
    { unfold revenue_desc. destruct after_ties; [rewrite Z.ltb_lt | rewrite Z.leb_le]; lia. }
    assert (Hother :
      (if after_ties
       then SalesReport.revenue y <? SalesReport.revenue x
       else SalesReport.revenue y <=? SalesReport.revenue x) = false
      -> revenue_desc y x).
    { unfold revenue_desc. destruct after_ties; [rewrite Z.ltb_ge | rewrite Z.leb_gt]; lia. }
    match goal with |- context [if ?c then _ else _] => destruct c end.
    + constructor; [exact Hs |]. constructor; [auto |].
      apply Forall_impl with (P := revenue_desc y); [| exact Hy].
      intros z Hz. apply revenue_desc_trans with y; auto.
    + constructor; [apply IH; exact Hl |].
      apply Permutation_Forall with (x :: l).
      * apply Permutation_sym, insert_desc_perm.
      * constructor; auto.
Qed.

Lemma isort_desc_sorted (after_ties : bool) (l : list SalesReport.product) :
  StronglySorted revenue_desc (isort_desc after_ties l).
Proof.
  unfold isort_desc. induction l as [|x l IH]; simpl.
  - constructor.
  - apply insert_desc_sorted. exact IH.
Qed.

(** A sort that keeps equal keys in input order. *)
Definition stable_sortArray : SortArray := {|
  sortArray := isort_desc false;
  sortArray_perm := isort_desc_perm false;
  sortArray_sorted := isort_desc_sorted false
|}.

(** A sort that meets the same contract and reverses equal keys. *)
Definition tie_reversing_sortArray : SortArray := {|
  sortArray := isort_desc true;
  sortArray_perm := isort_desc_perm true;
  sortArray_sorted := isort_desc_sorted true
|}.

(** ** Sales summary *)

Lemma str_in_In (s : string) (l : list string) : str_in s l = true <-> In s l.
Proof.
  induction l as [|x l IH]; simpl.
  - split; [discriminate | tauto].
  - rewrite orb_true_iff, String.eqb_eq, IH. tauto.
Qed.

Lemma sales_match_spec (s e : Z) (sl : Sale) :
  sales_match s e sl = true
  <-> s <= createdAt sl <= e
      /\ ~ In (contactName sl) EXCLUDED_CONTACTS
      /\ isDeleted sl = false.
Proof.
  unfold sales_match.
  rewrite !andb_true_iff, in_range_spec, !negb_true_iff.
  rewrite <- (str_in_In (contactName sl) EXCLUDED_CONTACTS).
  destruct (str_in (contactName sl) EXCLUDED_CONTACTS); intuition congruence.
Qed.

Lemma in_unwind {D E : Type} (arr : D -> list E) (docs : list D) (d : D) (x : E) :
  In (d, x) (unwind arr docs) <-> In d docs /\ In x (arr d).
Proof.
  unfold unwind. rewrite in_flat_map. split.
  - intros [d' [Hd Hin]]. apply in_map_iff in Hin.
    destruct Hin as [x' [Heq Hx]]. inversion Heq; subst. auto.
  - intros [Hd Hx]. exists d. split; [exact Hd |].
    apply in_map_iff. exists x. auto.
Qed.

Lemma StronglySorted_firstn {A : Type} (R : A -> A -> Prop) (n : nat) (l : list A) :
  StronglySorted R l -> StronglySorted R (firstn n l).
Proof.
  revert l. induction n as [|n IH]; intros l Hs; simpl.
  - constructor.
  - destruct l as [|x l]; [constructor |].
    inversion Hs as [|? ? Hl Hx]; subst. constructor; [apply IH; exact Hl |].
    rewrite Forall_forall in *. intros y Hy. apply Hx.
    revert Hy. clear. revert l. induction n as [|n IHn]; intros l; simpl; [tauto |].
    destruct l as [|z l]; simpl; [tauto |]. intros [-> | Hy]; auto.
Qed.

Lemma In_firstn {A : Type} (n : nat) (l : list A) (x : A) :
  In x (firstn n l) -> In x l.
Proof.
  revert l. induction n as [|n IH]; intros l; simpl; [tauto |].
  destruct l as [|y l]; simpl; [tauto |]. intros [-> | H]; auto.
Qed.

Section SalesFacts.
Context {sorter : SortArray}.

(** The report in closed form: the default without lines, the sums and the
    cut sorted list with lines. *)
Lemma sales_report_lines (db : Database) (s e : Z) :
  let lines := sales_lines s e (coll_Sale db) in
  _get_sales_report db s e
  = match lines with
    | [] => sales_default
    | _ :: _ =>
        SalesReport.mk
          (sumZ (map (fun l => itemRevenue (snd l)) lines))
          (sumZ (map (fun l => Doc.profit (snd l)) lines))
          (firstn 5 (sortArray (map pushed lines)))
    end.
Proof.
  intros lines. unfold _get_sales_report, sales_pipeline. fold lines.
  destruct lines; reflexivity.
Qed.

Lemma sales_top_products (db : Database) (s e : Z) :
  SalesReport.topProducts (_get_sales_report db s e)
  = firstn 5 (sortArray (map pushed (sales_lines s e (coll_Sale db)))).
Proof.
  rewrite sales_report_lines.
  destruct (sales_lines s e (coll_Sale db)) eqn:E; [| reflexivity].
  simpl. pose proof (sortArray_perm []) as H.
  apply Permutation_sym, Permutation_nil in H. rewrite H. reflexivity.
Qed.

End SalesFacts.

(** The line-items collected from the filtered sales of a collection, as
    pushed on [topProducts] before sorting. *)
Definition collected (s e : Z) (docs : list Sale) : list SalesReport.product :=
  map pushed (sales_lines s e docs).

(** [a] stands somewhere before [b] in [l]. *)
Definition precedes {A : Type} (a b : A) (l : list A) : Prop :=
  exists l1 l2 l3, l = l1 ++ a :: l2 ++ b :: l3.

(** Ties kept in encounter order: two different elements of equal revenue
    that follow each other in the output followed each other the same way in
    the collected list. *)
Definition ties_in_encounter_order (input output : list SalesReport.product) : Prop :=
  forall a b, a <> b -> SalesReport.revenue a = SalesReport.revenue b ->
              precedes a b output -> precedes a b input.

(** X27. Whatever operator serves [$sortArray],
    topProducts is in descending order of revenue, holds at most 5 elements
    (5, or all of them when fewer were collected), and each of them is one of
    the line-items collected from the filtered sales of the range; it is the
    first 5 of the sorted collection. The order among equal revenues is the
    operator's. *)
Theorem top_products_sorted_bounded_subset (sorter : SortArray)
  (db : Database) (s e : Z) :
  let top := SalesReport.topProducts (_get_sales_report db s e) in
  let all := collected s e (coll_Sale db) in
  StronglySorted revenue_desc top
  /\ (List.length top <= 5)%nat
  /\ List.length top = Nat.min 5 (List.length all)
  /\ (forall p, In p top -> In p all)
  /\ (forall p q, In p top -> In q all -> ~ In q top ->
                  SalesReport.revenue q <= SalesReport.revenue p).
Proof.
  intros top all. unfold top. rewrite sales_top_products. fold (collected s e (coll_Sale db)).
  fold all.
  pose proof (sortArray_perm all) as Hperm.
  pose proof (sortArray_sorted all) as Hsorted.
  split; [| split; [| split; [| split]]].
  - apply StronglySorted_firstn. exact Hsorted.
  - apply firstn_le_length.
  - rewrite length_firstn, (Permutation_length Hperm). reflexivity.
  - intros p Hp. apply (Permutation_in p Hperm). apply In_firstn with 5%nat. exact Hp.
  - intros p q Hp Hq Hnq.
    assert (Hq' : In q (sortArray all))
      by (apply (Permutation_in q (Permutation_sym Hperm)); exact Hq).
    rewrite <- (firstn_skipn 5 (sortArray all)) in Hq', Hsorted.
    apply in_app_or in Hq'. destruct Hq' as [Hq' | Hq']; [contradiction |].
    clear - Hsorted Hp Hq'.
    revert Hsorted Hp.
    generalize (firstn 5 (sortArray all)) as front.
    induction front as [|x front IH]; simpl; intros Hs Hp; [contradiction |].
    inversion Hs as [|? ? Hrest Hx]; subst. destruct Hp as [-> | Hp].
    + rewrite Forall_forall in Hx. apply Hx. apply in_or_app. auto.
    + apply IH; assumption.
Qed.

(** Two items of one sale with the same revenue. *)
Definition tie_sale : Sale :=
  mkSale 5 false true "walk-in"
         [] [ mkItem "collar" 10 1 3; mkItem "leash" 5 2 4 ].

(** The contract alone does not fix the order of ties: with an operator that
    meets it and reverses equal keys, "leash" comes out before "collar" although
    "collar" was met first and both have revenue 10. *)
Lemma top_products_ties_not_in_encounter_order :
  ~ (forall (sorter : SortArray) (db : Database) (s e : Z),
       ties_in_encounter_order
         (collected s e (coll_Sale db))
         (SalesReport.topProducts (_get_sales_report db s e))).
Proof.
  intros H.
  specialize (H tie_reversing_sortArray (mkDatabase [] [tie_sale]) 0 10
                (SalesReport.mkProduct "leash" 10 4)
                (SalesReport.mkProduct "collar" 10 3)).
  assert (Hneq : SalesReport.mkProduct "leash" 10 4 <> SalesReport.mkProduct "collar" 10 3)
    by discriminate.
  specialize (H Hneq eq_refl).
  assert (Hout : precedes (SalesReport.mkProduct "leash" 10 4)
                          (SalesReport.mkProduct "collar" 10 3)
                          (SalesReport.topProducts
                             (@_get_sales_report tie_reversing_sortArray
                                (mkDatabase [] [tie_sale]) 0 10))).
  { exists [], [], []. reflexivity. }
  destruct (H Hout) as [l1 [l2 [l3 E]]].
  vm_compute in E.
  destruct l1 as [|x1 l1]; simpl in E.
  - inversion E.
  - destruct l1 as [|x2 l1]; simpl in E.
    + inversion E as [[Hx Hl]]. destruct l2; discriminate.
    + inversion E as [[Hx Hy Hl]]. destruct l1; discriminate.
Qed.

(** ** Records that the [$match] stages drop *)

Lemma filter_drop {A : Type} (f : A -> bool) (l1 l2 : list A) (x : A) :
  f x = false -> filter f (l1 ++ x :: l2) = filter f (l1 ++ l2).
Proof.
  intros Hx. rewrite !filter_app. simpl. rewrite Hx. reflexivity.
Qed.

Lemma sales_match_excluded (s e : Z) (sl : Sale) :
  In (contactName sl) EXCLUDED_CONTACTS -> sales_match s e sl = false.
Proof.
  intros Hin. unfold sales_match. apply str_in_In in Hin. rewrite Hin.
  simpl. rewrite andb_false_r. reflexivity.
Qed.

Lemma sales_match_deleted (s e : Z) (sl : Sale) :
  isDeleted sl = true -> sales_match s e sl = false.
Proof.
  intros Hd. unfold sales_match. rewrite Hd. simpl. apply andb_false_r.
Qed.

Lemma clinic_match_deleted (s e : Z) (v : Sale) :
  isDeleted v = true -> clinic_match s e v = false.
Proof.
  intros Hd. unfold clinic_match. rewrite Hd. simpl.
  rewrite andb_false_r. reflexivity.
Qed.

Lemma payment_match_deleted (s e : Z) (p : Payment) :
  p_isDeleted p = true -> payment_match s e p = false.
Proof.
  intros Hd. unfold payment_match. rewrite Hd. simpl. apply andb_false_r.
Qed.

Lemma in_sales_lines (s e : Z) (docs : list Sale) (sl : Sale) (it : Item) :
  In (sl, it) (sales_lines s e docs)
  <-> In sl docs /\ sales_match s e sl = true /\ In it (items sl).
Proof.
  unfold sales_lines. rewrite in_unwind, filter_In. tauto.
Qed.

(** C5. A sale whose contact name is a member of the exclusion list, any
    member, adds nothing to the sales summary: the summary (totalRevenue,
    totalProfit, topProducts) is the one computed without that record; the
    totals are the sums over the line-items of the sales whose contact is not
    excluded, and every element of topProducts is a line-item of such a sale. *)
Theorem excluded_contact_contributes_nothing (sorter : SortArray)
  (payments : list Payment) (before after : list Sale) (r : Sale) (s e : Z) :
  In (contactName r) EXCLUDED_CONTACTS ->
  let report := _get_sales_report (mkDatabase payments (before ++ r :: after)) s e in
  let lines := sales_lines s e (before ++ after) in
  report = _get_sales_report (mkDatabase payments (before ++ after)) s e
  /\ SalesReport.totalRevenue report = sumZ (map (fun l => itemRevenue (snd l)) lines)
  /\ SalesReport.totalProfit report = sumZ (map (fun l => Doc.profit (snd l)) lines)
  /\ (forall l, In l lines -> ~ In (contactName (fst l)) EXCLUDED_CONTACTS)
  /\ (forall p, In p (SalesReport.topProducts report) -> exists l, In l lines /\ p = pushed l).
Proof.
  intros Hex report lines.
  assert (Hlines : sales_lines s e (before ++ r :: after) = lines).
  { unfold lines, sales_lines. rewrite (filter_drop _ _ _ r); [reflexivity |].
    apply sales_match_excluded. exact Hex. }
  assert (Hrep : report = _get_sales_report (mkDatabase payments (before ++ after)) s e).
  { unfold report. rewrite !sales_report_lines. simpl. rewrite Hlines. reflexivity. }
  split; [exact Hrep |].
  split; [| split; [| split]].
  - rewrite Hrep, sales_report_lines. simpl. fold lines. destruct lines; reflexivity.
  - rewrite Hrep, sales_report_lines. simpl. fold lines. destruct lines; reflexivity.
  - intros [sl it] Hl. apply in_sales_lines in Hl. destruct Hl as [_ [Hm _]].
    apply sales_match_spec in Hm. cbn [fst]. tauto.
  - intros p Hp. rewrite Hrep, sales_top_products in Hp. cbn [coll_Sale] in Hp.
    fold lines in Hp.
    apply In_firstn in Hp.
    apply (Permutation_in p (sortArray_perm _)) in Hp.
    apply in_map_iff in Hp. destruct Hp as [l [Hl1 Hl2]]. exists l. auto.
Qed.

(** C6. A record whose soft-delete flag is true adds nothing to any of the
    three summaries, whatever its other fields hold: each summary is the one
    computed without the record. *)
Theorem deleted_record_contributes_nothing (sorter : SortArray)
  (ps1 ps2 : list Payment) (dp : Payment)
  (ss1 ss2 : list Sale) (ds : Sale) (s e : Z) :
  p_isDeleted dp = true ->
  isDeleted ds = true ->
  let db := mkDatabase (ps1 ++ dp :: ps2) (ss1 ++ ds :: ss2) in
  let db' := mkDatabase (ps1 ++ ps2) (ss1 ++ ss2) in
  _get_payment_report db s e = _get_payment_report db' s e
  /\ _get_clinic_report db s e = _get_clinic_report db' s e
  /\ _get_sales_report db s e = _get_sales_report db' s e.
Proof.
  intros Hp Hs db db'. split; [| split].
  - unfold _get_payment_report, payment_pipeline, db, db'. simpl.
    rewrite (filter_drop _ _ _ dp); [reflexivity |].
    apply payment_match_deleted. exact Hp.
  - unfold _get_clinic_report, clinic_pipeline, db, db'. simpl.
    rewrite (filter_drop _ _ _ ds); [reflexivity |].
    apply clinic_match_deleted. exact Hs.
  - unfold _get_sales_report, sales_pipeline, sales_lines, db, db'. simpl.
    rewrite (filter_drop _ _ _ ds); [reflexivity |].
    apply sales_match_deleted. exact Hs.
Qed.

(** C8. When no record matches, each aggregation returns its default: the
    payment summary is the empty list, the clinic summary has its three
    revenues at zero, the sales summary has zero totals and no top product. *)
Theorem no_match_gives_defaults (sorter : SortArray) (db : Database) (s e : Z) :
  (filter (payment_match s e) (coll_Payment db) = [] ->
     _get_payment_report db s e = [])
  /\ (filter (clinic_match s e) (coll_Sale db) = [] ->
        _get_clinic_report db s e = ClinicReport.mk 0 0 0)
  /\ (filter (sales_match s e) (coll_Sale db) = [] ->
        _get_sales_report db s e = SalesReport.mk 0 0 []).
Proof.
  split; [| split]; intros H.
  - unfold _get_payment_report, payment_pipeline. rewrite H. reflexivity.
  - unfold _get_clinic_report, clinic_pipeline. rewrite H. reflexivity.
  - unfold _get_sales_report, sales_pipeline, sales_lines. rewrite H. reflexivity.
Qed.

(** *** Concrete instances *)

Definition walk_in_sale : Sale :=
  mkSale 5 false true "walk-in" [ mkService "فحص لارج" 100 2; mkService "فحص" 50 1 ]
         [ mkItem "collar" 10 1 3 ].

Definition house_sale : Sale :=
  mkSale 6 false true "عيادة الأنعام - الإدارة" [] [ mkItem "vaccine" 500 4 900 ].

Definition deleted_sale : Sale :=
  mkSale 7 true true "walk-in" [ mkService "جراحة لارج" 900 1 ] [ mkItem "cage" 300 1 80 ].

Definition deleted_payment : Payment := mkPayment 7 true "cash" false 1000.

Definition cash_payment : Payment := mkPayment 5 false "cash" false 100.

Lemma excluded_contact_instance :
  In (contactName house_sale) EXCLUDED_CONTACTS
  /\ @_get_sales_report stable_sortArray
       (mkDatabase [] ([walk_in_sale] ++ house_sale :: [])) 0 10
     = @_get_sales_report stable_sortArray
       (mkDatabase [] ([walk_in_sale] ++ [])) 0 10.
Proof.
  assert (H : In (contactName house_sale) EXCLUDED_CONTACTS).
  { simpl. right. left. reflexivity. }
  split; [exact H |].
  exact (proj1 (excluded_contact_contributes_nothing
                  stable_sortArray [] [walk_in_sale] [] house_sale 0 10 H)).
Defined.

Lemma deleted_record_instance :
  p_isDeleted deleted_payment = true
  /\ isDeleted deleted_sale = true
  /\ _get_payment_report
       (mkDatabase ([cash_payment] ++ deleted_payment :: [])
                   ([walk_in_sale] ++ deleted_sale :: [])) 0 10
     = _get_payment_report (mkDatabase ([cash_payment] ++ []) ([walk_in_sale] ++ [])) 0 10.
Proof.
  split; [reflexivity |]. split; [reflexivity |].
  exact (proj1 (deleted_record_contributes_nothing
                  stable_sortArray [cash_payment] [] deleted_payment
                  [walk_in_sale] [] deleted_sale 0 10 eq_refl eq_refl)).
Defined.

Lemma no_match_instance :
  filter (payment_match 100 200) [cash_payment] = []
  /\ _get_payment_report (mkDatabase [cash_payment] [walk_in_sale]) 100 200 = []
  /\ _get_clinic_report (mkDatabase [cash_payment] [walk_in_sale]) 100 200
     = ClinicReport.mk 0 0 0
  /\ @_get_sales_report stable_sortArray (mkDatabase [cash_payment] [walk_in_sale]) 100 200
     = SalesReport.mk 0 0 [].
Proof.
  pose proof (no_match_gives_defaults stable_sortArray
                (mkDatabase [cash_payment] [walk_in_sale]) 100 200) as [H1 [H2 H3]].
  split; [reflexivity |].
  split; [apply H1; reflexivity |].
  split; [apply H2; reflexivity | apply H3; reflexivity].
Defined.

(** ** The endpoint *)

Lemma dict_get_None (d : list (string * string)) (k : string) :
  ~ In k (map fst d) -> dict_get d k = None.
Proof.
  induction d as [|[k' v] d IH]; simpl; intros Hnin; [reflexivity |].
  destruct (String.eqb k' k) eqn:E.
  - apply String.eqb_eq in E. tauto.
  - apply IH. tauto.
Qed.

(** C7. A request whose dataset key is not a key of the allow-list ends in
    the client error 400 "Invalid database option"; nothing is connected,
    queried, registered or rendered: the only thing that may happen is the
    closing of a client left by an earlier request. *)
Theorem unknown_dataset_rejected (sorter : SortArray) (env : Env)
  (request : ReportRequest) (w : World) :
  ~ In (db_option request) (map fst DATABASE_MAP) ->
  fst (generate_full_report env request w)
  = inl (HTTPException 400 "Invalid database option")
  /\ trace (snd (generate_full_report env request w))
     = trace w ++ match client w with Some _ => [EvClose] | None => [] end
  /\ fonts (snd (generate_full_report env request w)) = fonts w
  /\ client (snd (generate_full_report env request w)) = client w.
Proof.
  intros Hkey. apply dict_get_None in Hkey.
  unfold generate_full_report, try_finally, try_except, full_report_body.
  rewrite Hkey. unfold raise, full_report_handler, raise, db_close, emit.
  destruct (client w) eqn:Hc; simpl.
  - auto.
  - rewrite app_nil_r. auto.
Qed.

Definition idle_world : World := mkWorld [] [] None.

Definition no_fonts_env : Env :=
  mkEnv None (fun _ _ => inr (mkDatabase [cash_payment] [walk_in_sale]))
        (fun _ => false)
        (fun _ => "2024-01-01")
        (fun _ _ => inr [Byte.x25; Byte.x50; Byte.x44; Byte.x46]).

Lemma unknown_dataset_instance :
  ~ In "other" (map fst DATABASE_MAP)
  /\ fst (@generate_full_report stable_sortArray no_fonts_env
            (mkRequest "other" 0 10) idle_world)
     = inl (HTTPException 400 "Invalid database option")
  /\ trace (snd (@generate_full_report stable_sortArray no_fonts_env
                   (mkRequest "other" 0 10) idle_world)) = [].
Proof.
  assert (H : ~ In "other" (map fst DATABASE_MAP)).
  { simpl. intros [H | [H | [H | []]]]; discriminate. }
  split; [exact H |].
  pose proof (unknown_dataset_rejected stable_sortArray no_fonts_env
                (mkRequest "other" 0 10) idle_world H) as [H1 [H2 _]].
  split; [exact H1 | exact H2].
Defined.

(** *** The second [decode] *)

Lemma bind_inr_inv {A B : Type} (m : M A) (k : A -> M B) (w w'' : World) (b : B) :
  bind m k w = (inr b, w'') ->
  exists a w', m w = (inr a, w') /\ k a w' = (inr b, w'').
Proof.
  unfold bind. destruct (m w) as [[e | a] w'] eqn:E; intros H.
  - discriminate.
  - exists a, w'. auto.
Qed.

(** Whenever the renderer returns, what it returns is a [str]: the base64
    text of the document bytes, already decoded. *)
Lemma generate_full_report_pdf_returns_str (env : Env)
  (payment : list PaymentReport.t) (clinic : ClinicReport.t) (sales : SalesReport.t)
  (s e : Z) (db_name : string) (w w' : World) (o : pyobj) :
  generate_full_report_pdf env payment clinic sales s e db_name w = (inr o, w') ->
  exists b, o = PyStr (latin1 (b64encode b)).
Proof.
  unfold generate_full_report_pdf. intros H.
  apply bind_inr_inv in H. destruct H as [_ [w1 [_ H]]].
  apply bind_inr_inv in H. destruct H as [b [w2 [_ H]]].
  unfold ret in H. inversion H. exists b. reflexivity.
Qed.

Section NeverSucceeds.
Context {sorter : SortArray}.
Variable env : Env.

Lemma full_report_body_raises (request : ReportRequest) (w w' : World)
  (resp : FullReportResponse) :
  full_report_body env request w <> (inr resp, w').
Proof.
  unfold full_report_body. intros H.
  destruct (dict_get DATABASE_MAP (db_option request)) as [db_name |]; [| discriminate].
  destruct (truthy (Some db_name)); [| discriminate].
  apply bind_inr_inv in H. destruct H as [database [w1 [_ H]]].
  apply bind_inr_inv in H. destruct H as [payment [w2 [_ H]]].
  apply bind_inr_inv in H. destruct H as [clinic [w3 [_ H]]].
  apply bind_inr_inv in H. destruct H as [sales [w4 [_ H]]].
  apply bind_inr_inv in H. destruct H as [pdf [w5 [Hpdf H]]].
  apply generate_full_report_pdf_returns_str in Hpdf. destruct Hpdf as [b ->].
  apply bind_inr_inv in H. destruct H as [decoded [w6 [H _]]].
  discriminate.
Qed.

(** X24. For no request, no data and no world does the endpoint return a
    payload: every path ends in an [HTTPException]. *)
Lemma generate_full_report_always_raises (request : ReportRequest) (w : World) :
  exists code detail,
    fst (generate_full_report env request w) = inl (HTTPException code detail).
Proof.
  unfold generate_full_report, try_finally, try_except.
  destruct (full_report_body env request w) as [[e | resp] w'] eqn:E.
  - assert (Hh : exists code detail,
               fst (full_report_handler e w') = inl (HTTPException code detail)).
    { destruct e; simpl; eauto. }
    destruct (full_report_handler e w') as [r w''] eqn:Eh.
    simpl in Hh. destruct Hh as [code [detail ->]].
    unfold db_close, emit. destruct (client w''); simpl; eauto.
  - exfalso. exact (full_report_body_raises request w w' resp E).
Qed.

End NeverSucceeds.

(** The fixture of the end-to-end scenario: two incoming cash payments of
    150 in total, one outgoing network payment of 50. *)
Definition khamis_payments : list Payment :=
  [ mkPayment 5 false "cash" false 100;
    mkPayment 6 false "network" true 50;
    mkPayment 7 false "cash" false 50 ].

(** An environment in which everything works: the data is there, both font
    files can be read, the layout engine returns the bytes [%PDF]. *)
Definition working_env : Env :=
  mkEnv None (fun _ _ => inr (mkDatabase khamis_payments [walk_in_sale]))
        (fun _ => true)
        (fun _ => "2024-01-01")
        (fun _ _ => inr [Byte.x25; Byte.x50; Byte.x44; Byte.x46]).

Definition khamis_request : ReportRequest := mkRequest "khamis" 0 10.

(** C1, at a request with a valid key for which the three aggregations and
    the rendering succeed. The renderer returns the base64 text of the
    document as a [str]; the endpoint then calls [decode] on that [str], which
    raises, and the request ends in the server error 500 after all the work
    has been done. No payload with [success = true] is returned. *)
Theorem khamis_request_fails_on_second_decode :
  fst (generate_full_report_pdf working_env
         (_get_payment_report (mkDatabase khamis_payments [walk_in_sale]) 0 10)
         (_get_clinic_report (mkDatabase khamis_payments [walk_in_sale]) 0 10)
         (@_get_sales_report stable_sortArray (mkDatabase khamis_payments [walk_in_sale]) 0 10)
         0 10 "Elanam-KhamisMushit" idle_world)
  = inr (PyStr "JVBERg==")
  /\ fst (@generate_full_report stable_sortArray working_env khamis_request idle_world)
     = inl (HTTPException 500 "Server error: 'str' object has no attribute 'decode'")
  /\ trace (snd (@generate_full_report stable_sortArray working_env khamis_request idle_world))
     = [ EvConnect "Elanam-KhamisMushit";
         EvAggregate "Payment"; EvAggregate "Sale"; EvAggregate "Sale";
         EvRegisterFont "Arabic" "assets/fonts/arabic.ttf";
         EvBuild;
         EvClose ].
Proof.
  split; [| split]; vm_compute; reflexivity.
Qed.

(** The two end-to-end scenarios of the aggregation engine. *)
Example khamis_payment_rows :
  _get_payment_report (mkDatabase khamis_payments []) 0 10
  = [ PaymentReport.mk "cash" false 150 2; PaymentReport.mk "network" true 50 1 ].
Proof. reflexivity. Qed.

Example large_and_normal_service :
  _get_clinic_report (mkDatabase [] [walk_in_sale]) 0 10 = ClinicReport.mk 250 200 50.
Proof. reflexivity. Qed.

(** ** Fonts *)

Lemma setup_font_primary (env : Env) (w : World) :
  font_file_readable env "assets/fonts/arabic.ttf" = true ->
  _setup_arabic_font env w
  = (inr tt, mkWorld (trace w ++ [EvRegisterFont "Arabic" "assets/fonts/arabic.ttf"])
                     (("Arabic", "assets/fonts/arabic.ttf") :: fonts w) (client w)).
Proof.
  intros H. unfold _setup_arabic_font, try_except, registerFont_TTFont.
  rewrite H. reflexivity.
Qed.

Lemma setup_font_fallback (env : Env) (w : World) :
  font_file_readable env "assets/fonts/arabic.ttf" = false ->
  _setup_arabic_font env w
  = if font_file_readable env "Arial"
    then (inr tt, mkWorld (trace w ++ [EvRegisterFont "Arabic" "Arial"])
                          (("Arabic", "Arial") :: fonts w) (client w))
    else (inl (TTFError "Arial"), w).
Proof.
  intros H. unfold _setup_arabic_font, try_except, registerFont_TTFont.
  rewrite H. simpl. destruct (font_file_readable env "Arial"); reflexivity.
Qed.

(** X28. When the configured font file cannot be read,
    the renderer registers the substitute "Arial" under the same name and, if
    the layout engine builds the document with it, returns the document; when
    "Arial" cannot be read either, the renderer raises that error and lays
    nothing out. *)
Theorem font_fallback_renders_when_substitute_loads (env : Env)
  (payment : list PaymentReport.t) (clinic : ClinicReport.t) (sales : SalesReport.t)
  (s e : Z) (db_name : string) (w : World) :
  font_file_readable env "assets/fonts/arabic.ttf" = false ->
  let elements := report_elements env payment clinic sales s e db_name in
  let run := generate_full_report_pdf env payment clinic sales s e db_name w in
  (font_file_readable env "Arial" = true ->
     forall pdf, doc_build env (("Arabic", "Arial") :: fonts w) elements = inr pdf ->
       fst run = inr (PyStr (latin1 (b64encode pdf)))
       /\ fonts (snd run) = ("Arabic", "Arial") :: fonts w
       /\ trace (snd run) = trace w ++ [EvRegisterFont "Arabic" "Arial"; EvBuild])
  /\ (font_file_readable env "Arial" = false ->
        run = (inl (TTFError "Arial"), w)).
Proof.
  intros Hprimary elements run. split.
  - intros Harial pdf Hbuild. unfold run, generate_full_report_pdf, bind.
    rewrite (setup_font_fallback env w Hprimary), Harial.
    unfold build, bind, emit. simpl. fold elements. rewrite Hbuild. simpl.
    rewrite <- app_assoc. auto.
  - intros Harial. unfold run, generate_full_report_pdf, bind.
    rewrite (setup_font_fallback env w Hprimary), Harial. reflexivity.
Qed.

(** Only the substitute font can be read. *)
Definition arial_only_env : Env :=
  mkEnv None (fun _ _ => inr (mkDatabase khamis_payments [walk_in_sale]))
        (fun file => String.eqb file "Arial")
        (fun _ => "2024-01-01")
        (fun _ _ => inr [Byte.x25; Byte.x50; Byte.x44; Byte.x46]).

Lemma font_fallback_instance :
  font_file_readable arial_only_env "assets/fonts/arabic.ttf" = false
  /\ fst (generate_full_report_pdf arial_only_env [] clinic_default sales_default
            0 10 "Elanam-Baish" idle_world)
     = inr (PyStr (latin1 (b64encode [Byte.x25; Byte.x50; Byte.x44; Byte.x46]))).
Proof.
  split; [reflexivity |].
  exact (proj1 (proj1 (font_fallback_renders_when_substitute_loads
                         arial_only_env [] clinic_default sales_default
                         0 10 "Elanam-Baish" idle_world eq_refl)
                      eq_refl _ eq_refl)).
Defined.

(** C9. The fallback is itself unguarded. Where neither the configured font
    file nor "Arial" can be read, the second [registerFont] raises inside the
    [except] branch: although the data is there and the layout engine would
    build any document, the renderer raises and the request ends in the
    server error 500 with the message of the font error. *)
Lemma missing_fonts_fail_the_request :
  ~ (forall (env : Env) (payment : list PaymentReport.t) (clinic : ClinicReport.t)
            (sales : SalesReport.t) (s e : Z) (db_name : string) (w : World),
       font_file_readable env "assets/fonts/arabic.ttf" = false ->
       (forall registry elements, exists pdf, doc_build env registry elements = inr pdf) ->
       exists o, fst (generate_full_report_pdf env payment clinic sales s e db_name w)
                 = inr o)
  /\ fst (@generate_full_report stable_sortArray no_fonts_env khamis_request idle_world)
     = inl (HTTPException 500
              ("Server error: Can't open file " ++ dquote ++ "Arial" ++ dquote)).
Proof.
  split.
  - intros H.
    destruct (H no_fonts_env [] clinic_default sales_default 0 10 "Elanam-Baish"
                idle_world eq_refl) as [o Ho].
    + intros registry elements. eexists. reflexivity.
    + vm_compute in Ho. discriminate.
  - vm_compute. reflexivity.
Qed.

(** ** What reaches the text shaper *)

Definition cell_shaped (c : text) : list string :=
  match c with
  | Shaped s => [s]
  | Plain _ => []
  end.

Definition cell_plain (c : text) : list string :=
  match c with
  | Plain s => [s]
  | Shaped _ => []
  end.

(** The logical strings of a flowable that went through [_ar]. *)
Definition shaped_strings (f : flowable) : list string :=
  match f with
  | Paragraph t _ => cell_shaped t
  | Table data _ => flat_map (flat_map cell_shaped) data
  | _ => []
  end.

(** The strings of a flowable that are laid out as composed. *)
Definition plain_strings (f : flowable) : list string :=
  match f with
  | Paragraph t _ => cell_plain t
  | Table data _ => flat_map (flat_map cell_plain) data
  | _ => []
  end.

(** The string ends with an amount formatted to two decimals followed by the
    currency code. *)
Definition has_currency (t : string) : Prop :=
  exists (label : string) (x : Z), t = (label ++ money x)%string.

(** The fixed right-to-left literals of [pdf.py]. *)
Definition ARABIC_LABELS : list string :=
  [ "تقرير العيادة البيطرية الشامل";
    "تقرير المدفوعات"; "النوع"; "الطريقة"; "المبلغ"; "عدد المعاملات";
    "صادر"; "وارد"; "شبكة"; "كاش";
    "تقرير العيادة"; "الإجمالي"; "خدمات لارج"; "خدمات عادية";
    "تقرير المبيعات والأرباح"; "أفضل المنتجات:"; "المنتج"; "الإيراد"; "الربح" ].

Ltac in_list := simpl; repeat (first [left; reflexivity | right]).

Lemma payment_table_shaped (data : list PaymentReport.t) (t : string) :
  In t (flat_map (flat_map cell_shaped) (payment_table data)) -> In t ARABIC_LABELS.
Proof.
  unfold payment_table. simpl.
  intros [<- | [<- | [<- | [<- | H]]]]; try (unfold ARABIC_LABELS; in_list; fail).
  apply in_flat_map in H. destruct H as [row [Hrow Ht]].
  apply in_map_iff in Hrow. destruct Hrow as [item [<- _]].
  unfold payment_row in Ht. simpl in Ht.
  destruct (PaymentReport.isOutgoing item),
           (String.eqb (PaymentReport.method item) "network");
    destruct Ht as [<- | [<- | []]]; unfold ARABIC_LABELS; in_list.
Qed.

Lemma payment_table_plain (data : list PaymentReport.t) (item : PaymentReport.t) :
  In item data ->
  In (money (PaymentReport.totalAmount item))
     (flat_map (flat_map cell_plain) (payment_table data)).
Proof.
  intros Hin. unfold payment_table. simpl.
  apply in_flat_map. exists (payment_row item).
  split; [apply in_map; exact Hin | simpl; auto].
Qed.

Lemma products_table_shaped (top : list SalesReport.product) (t : string) :
  In t (flat_map (flat_map cell_shaped) (products_table top)) ->
  In t ARABIC_LABELS \/ exists p, In p top /\ t = SalesReport.productName p.
Proof.
  unfold products_table. simpl.
  intros [<- | [<- | [<- | H]]]; try (left; unfold ARABIC_LABELS; in_list; fail).
  right. apply in_flat_map in H. destruct H as [row [Hrow Ht]].
  apply in_map_iff in Hrow. destruct Hrow as [p [<- Hp]].
  simpl in Ht. destruct Ht as [<- | []]. exists p. auto.
Qed.

Lemma products_table_plain (top : list SalesReport.product) (p : SalesReport.product) :
  In p top ->
  In (money (SalesReport.revenue p)) (flat_map (flat_map cell_plain) (products_table top))
  /\ In (money (SalesReport.profit p)) (flat_map (flat_map cell_plain) (products_table top)).
Proof.
  intros Hin. unfold products_table. simpl.
  split; apply in_flat_map; exists (product_row p);
    (split; [apply in_map; exact Hin | simpl; auto]).
Qed.

(** The part of [elements] that does not depend on [topProducts] being empty. *)
Definition fixed_elements (env : Env)
  (payment : list PaymentReport.t) (clinic : ClinicReport.t) (sales : SalesReport.t)
  (s e : Z) (db_name : string) : list flowable :=
  [ Paragraph (Shaped "تقرير العيادة البيطرية الشامل") ArabicTitle;
    Spacer 1 24;
    Paragraph (Shaped ("القاعدة: " ++ db_name)) ArabicNormal;
    Paragraph (Shaped ("الفترة من " ++ strftime_ymd env s
                       ++ " إلى " ++ strftime_ymd env e)) ArabicNormal;
    PageBreak;
    Paragraph (Shaped "تقرير المدفوعات") ArabicHeader;
    Spacer 1 12;
    Table (payment_table payment) 1;
    PageBreak;
    Paragraph (Shaped "تقرير العيادة") ArabicHeader;
    Spacer 1 12;
    Table (clinic_table clinic) 0;
    PageBreak;
    Paragraph (Shaped "تقرير المبيعات والأرباح") ArabicHeader;
    Spacer 1 12;
    Paragraph (Shaped ("إجمالي الإيرادات: " ++ money (SalesReport.totalRevenue sales)))
              ArabicNormal;
    Paragraph (Shaped ("إجمالي الأرباح: " ++ money (SalesReport.totalProfit sales)))
              ArabicNormal;
    Spacer 1 12 ].

Definition products_elements (sales : SalesReport.t) : list flowable :=
  match SalesReport.topProducts sales with
  | [] => []
  | _ :: _ =>
      [ Paragraph (Shaped "أفضل المنتجات:") ArabicNormal;
        Table (products_table (SalesReport.topProducts sales)) 1 ]
  end.

Lemma report_elements_layout (env : Env)
  (payment : list PaymentReport.t) (clinic : ClinicReport.t) (sales : SalesReport.t)
  (s e : Z) (db_name : string) :
  report_elements env payment clinic sales s e db_name
  = fixed_elements env payment clinic sales s e db_name ++ products_elements sales.
Proof. reflexivity. Qed.

(** C10, as the code has it. In the tables of the payment, clinic and sales
    sections every amount is laid out as composed, number then currency code,
    and no composed amount goes through the shaper there: what the tables
    shape are fixed Arabic labels and product names. The two summary lines of
    the sales section are different: each is one string, an Arabic label
    followed by the amount and the currency code, and that whole string is
    shaped. Besides these the shaper receives the fixed labels and the two
    cover lines (dataset name, period). *)
Theorem amounts_plain_in_tables_shaped_in_sales_lines (env : Env)
  (payment : list PaymentReport.t) (clinic : ClinicReport.t) (sales : SalesReport.t)
  (s e : Z) (db_name : string) :
  let elements := report_elements env payment clinic sales s e db_name in
  (forall data rows t, In (Table data rows) elements ->
      In t (shaped_strings (Table data rows)) ->
      In t ARABIC_LABELS
      \/ exists p, In p (SalesReport.topProducts sales) /\ t = SalesReport.productName p)
  /\ (forall tx st t, In (Paragraph tx st) elements ->
        In t (shaped_strings (Paragraph tx st)) ->
        In t ARABIC_LABELS
        \/ t = ("القاعدة: " ++ db_name)%string
        \/ t = ("الفترة من " ++ strftime_ymd env s
                ++ " إلى " ++ strftime_ymd env e)%string
        \/ t = ("إجمالي الإيرادات: " ++ money (SalesReport.totalRevenue sales))%string
        \/ t = ("إجمالي الأرباح: " ++ money (SalesReport.totalProfit sales))%string)
  /\ In (Paragraph (Shaped ("إجمالي الإيرادات: " ++ money (SalesReport.totalRevenue sales)))
                   ArabicNormal) elements
  /\ In (Paragraph (Shaped ("إجمالي الأرباح: " ++ money (SalesReport.totalProfit sales)))
                   ArabicNormal) elements
  /\ (forall item, In item payment ->
        In (money (PaymentReport.totalAmount item))
           (plain_strings (Table (payment_table payment) 1)))
  /\ In (Table (payment_table payment) 1) elements
  /\ plain_strings (Table (clinic_table clinic) 0)
     = [ money (ClinicReport.totalRevenue clinic);
         money (ClinicReport.largeServicesRevenue clinic);
         money (ClinicReport.normalServicesRevenue clinic) ]
  /\ In (Table (clinic_table clinic) 0) elements
  /\ (forall p, In p (SalesReport.topProducts sales) ->
        In (Table (products_table (SalesReport.topProducts sales)) 1) elements
        /\ In (money (SalesReport.revenue p))
              (plain_strings (Table (products_table (SalesReport.topProducts sales)) 1))
        /\ In (money (SalesReport.profit p))
              (plain_strings (Table (products_table (SalesReport.topProducts sales)) 1))).
Proof.
  intros elements. unfold elements. rewrite report_elements_layout.
  repeat split.
  - intros data rows t Hf Ht. apply in_app_or in Hf. destruct Hf as [Hf | Hf].
    + unfold fixed_elements in Hf. simpl in Hf.
      repeat (destruct Hf as [Hf | Hf]; [try discriminate Hf |]); try contradiction.
      * inversion Hf; subst. left. apply payment_table_shaped with payment. exact Ht.
      * inversion Hf; subst. left. simpl in Ht.
        destruct Ht as [<- | [<- | [<- | []]]]; unfold ARABIC_LABELS; in_list.
    + unfold products_elements in Hf.
      destruct (SalesReport.topProducts sales) as [|p0 top] eqn:Htop; [contradiction |].
      destruct Hf as [Hf | [Hf | []]]; [discriminate Hf |].
      inversion Hf; subst. apply products_table_shaped. exact Ht.
  - intros tx st t Hf Ht. apply in_app_or in Hf. destruct Hf as [Hf | Hf].
    + unfold fixed_elements in Hf. simpl in Hf.
      repeat (destruct Hf as [Hf | Hf]; [try discriminate Hf |]); try contradiction;
        inversion Hf; subst; simpl in Ht; destruct Ht as [<- | []];
        try (left; unfold ARABIC_LABELS; in_list; fail); tauto.
    + unfold products_elements in Hf.
      destruct (SalesReport.topProducts sales) as [|p0 top] eqn:Htop; [contradiction |].
      destruct Hf as [Hf | [Hf | []]]; [| discriminate Hf].
      inversion Hf; subst. simpl in Ht. destruct Ht as [<- | []].
      left. unfold ARABIC_LABELS. in_list.
  - apply in_or_app. left. unfold fixed_elements. in_list.
  - apply in_or_app. left. unfold fixed_elements. in_list.
  - intros item Hin. apply payment_table_plain. exact Hin.
  - apply in_or_app. left. unfold fixed_elements. in_list.
  - apply in_or_app. left. unfold fixed_elements. in_list.
  - apply in_or_app. right. unfold products_elements.
    destruct (SalesReport.topProducts sales); [contradiction | in_list].
  - apply products_table_plain. assumption.
  - apply products_table_plain. assumption.
Qed.

(** C10, as stated, fails in the sales section: with no data at all the
    first summary line is the shaped string made of the Arabic label followed
    by "0.00 SAR". *)
Lemma sales_summary_amount_is_shaped :
  ~ (forall (env : Env) (payment : list PaymentReport.t) (clinic : ClinicReport.t)
            (sales : SalesReport.t) (s e : Z) (db_name : string) (f : flowable) (t : string),
       In f (report_elements env payment clinic sales s e db_name) ->
       In t (shaped_strings f) -> ~ has_currency t).
Proof.
  intros H.
  apply (H working_env [] clinic_default sales_default 0 10 "Elanam-Baish"
           (revenue_line sales_default)
           ("إجمالي الإيرادات: " ++ money 0)%string).
  - rewrite report_elements_layout. apply in_or_app. left.
    unfold fixed_elements, revenue_line. in_list.
  - simpl. left. reflexivity.
  - exists "إجمالي الإيرادات: ", 0. reflexivity.
Qed.

(** * Further properties of the code *)

(** ** The marker test of the clinic pipeline *)

Lemma prefix_iff (pat s : string) :
  String.prefix pat s = true <-> exists rest : string, s = (pat ++ rest)%string.
Proof.
  revert s. induction pat as [|c pat IH]; intros s; simpl.
  - split; [intros _; exists s; reflexivity | intros _; destruct s; reflexivity].
  - destruct s as [|d s]; simpl.
    + split; [discriminate | intros [rest H]; discriminate].
    + destruct (Ascii.ascii_dec c d) as [-> | Hneq].
      * rewrite IH. split; intros [rest H]; exists rest.
        -- rewrite H. reflexivity.
        -- inversion H. reflexivity.
      * split; [discriminate | intros [rest H]; inversion H; congruence].
Qed.

Lemma contains_iff (pat s : string) :
  contains pat s = true
  <-> exists before after : string, s = (before ++ pat ++ after)%string.
Proof.
  induction s as [|c s IH]; cbn [contains]; rewrite orb_true_iff, prefix_iff.
  - split.
    + intros [[rest H] | H]; [| discriminate]. exists EmptyString, rest. exact H.
    + intros [before [after H]]. left. destruct before; [| discriminate].
      exists after. exact H.
  - rewrite IH. split.
    + intros [[rest H] | [before [after H]]].
      * exists EmptyString, rest. exact H.
      * exists (String c before), after. simpl. rewrite H. reflexivity.
    + intros [before [after H]]. destruct before as [|d before]; simpl in H.
      * left. exists after. exact H.
      * right. inversion H. exists before, after. reflexivity.
Qed.

(** X1. A service line counts as large exactly when the marker occurs
    somewhere in its name: at the start, at the end or in the middle, next to
    any other text. *)
Theorem isLarge_iff_marker_occurs (svc : Service) :
  isLarge svc = true
  <-> exists before after : string,
        serviceName svc = (before ++ "لارج" ++ after)%string.
Proof.
  unfold isLarge. apply contains_iff.
Qed.

(** ** Permutations, sums and filters *)



(** ** Payment summary: nothing lost, nothing counted twice *)




(** ** Payment summary: the scan order of the collection *)






(** ** Clinic and sales summaries as functions of the unwound elements *)

Lemma map_snd_unwind {D E : Type} (arr : D -> list E) (docs : list D) :
  map snd (unwind arr docs) = flat_map arr docs.
Proof.
  unfold unwind. induction docs as [|d docs IH]; simpl; [reflexivity |].
  rewrite map_app, IH, map_map. simpl. rewrite map_id. reflexivity.
Qed.

(** The services that reach the [$group] stage of the clinic pipeline. *)
Definition clinic_services (s e : Z) (docs : list Sale) : list Service :=
  flat_map services (filter (clinic_match s e) docs).

(** The items that reach the [$group] stage of the sales pipeline. *)
Definition sales_items (s e : Z) (docs : list Sale) : list Item :=
  flat_map items (filter (sales_match s e) docs).

(** What [$push] builds from an item. *)
Definition pushed_item (it : Item) : SalesReport.product :=
  SalesReport.mkProduct (Doc.productName it) (itemRevenue it) (Doc.profit it).

Lemma clinic_report_services (db : Database) (s e : Z) :
  let svcs := clinic_services s e (coll_Sale db) in
  _get_clinic_report db s e
  = ClinicReport.mk
      (sumZ (map serviceRevenue svcs))
      (sumZ (map (fun v => if isLarge v then serviceRevenue v else 0) svcs))
      (sumZ (map (fun v => if isLarge v then 0 else serviceRevenue v) svcs)).
Proof.
  intros svcs. rewrite clinic_report_sums. cbv zeta.
  unfold svcs, clinic_services, clinic_lines.
  rewrite <- (map_snd_unwind services), !map_map. reflexivity.
Qed.

Lemma collected_items (s e : Z) (docs : list Sale) :
  collected s e docs = map pushed_item (sales_items s e docs).
Proof.
  unfold collected, sales_items, sales_lines.
  rewrite <- (map_snd_unwind items), map_map. reflexivity.
Qed.

Section SalesItems.
Context {sorter : SortArray}.

Lemma sales_report_items (db : Database) (s e : Z) :
  let its := sales_items s e (coll_Sale db) in
  _get_sales_report db s e
  = SalesReport.mk
      (sumZ (map itemRevenue its))
      (sumZ (map Doc.profit its))
      (firstn 5 (sortArray (map pushed_item its))).
Proof.
  intros its. rewrite sales_report_lines. cbv zeta.
  fold (collected s e (coll_Sale db)). rewrite collected_items. fold its.
  assert (H1 : sumZ (map (fun l => itemRevenue (snd l)) (sales_lines s e (coll_Sale db)))
               = sumZ (map itemRevenue its)).
  { unfold its, sales_items, sales_lines.
    rewrite <- (map_snd_unwind items), map_map. reflexivity. }
  assert (H2 : sumZ (map (fun l => Doc.profit (snd l)) (sales_lines s e (coll_Sale db)))
               = sumZ (map Doc.profit its)).
  { unfold its, sales_items, sales_lines.
    rewrite <- (map_snd_unwind items), map_map. reflexivity. }
  assert (H3 : sales_lines s e (coll_Sale db) = [] -> its = []).
  { intros E. unfold its, sales_items. rewrite <- (map_snd_unwind items).
    unfold sales_lines in E. rewrite E. reflexivity. }
  destruct (sales_lines s e (coll_Sale db)) eqn:E.
  - rewrite (H3 eq_refl). simpl.
    pose proof (sortArray_perm []) as Hp. apply Permutation_sym, Permutation_nil in Hp.
    rewrite Hp. reflexivity.
  - rewrite H1, H2. reflexivity.
Qed.

End SalesItems.








(** ** Adjacent ranges *)











(** ** Edge cases of the [$match] and [$unwind] stages *)

Lemma filter_none {A : Type} (f : A -> bool) (l : list A) :
  (forall x, f x = false) -> filter f l = [].
Proof.
  intros Hf. induction l as [|x l IH]; simpl; [reflexivity |].
  rewrite Hf. exact IH.
Qed.

Lemma in_range_inverted (s e t : Z) : e < s -> in_range s e t = false.
Proof.
  intros H. unfold in_range.
  destruct (Z.leb_spec s t), (Z.leb_spec t e); simpl; try reflexivity; lia.
Qed.

(** X8. A range whose end lies before its start matches nothing: the three
    aggregations return the empty list and the two defaults, whatever the
    collections hold. The bounds are not swapped and no error is raised. *)
Theorem inverted_range_gives_defaults (sorter : SortArray) (db : Database) (s e : Z) :
  e < s ->
  _get_payment_report db s e = []
  /\ _get_clinic_report db s e = clinic_default
  /\ _get_sales_report db s e = sales_default.
Proof.
  intros H. split; [| split].
  - unfold _get_payment_report, payment_pipeline. rewrite filter_none; [reflexivity |].
    intros p. unfold payment_match. rewrite in_range_inverted by exact H. reflexivity.
  - unfold _get_clinic_report, clinic_pipeline. rewrite filter_none; [reflexivity |].
    intros v. unfold clinic_match. rewrite in_range_inverted by exact H. reflexivity.
  - unfold _get_sales_report, sales_pipeline, sales_lines.
    rewrite filter_none; [reflexivity |].
    intros v. unfold sales_match. rewrite in_range_inverted by exact H. reflexivity.
Qed.

Lemma inverted_range_instance :
  0 < 10
  /\ _get_payment_report (mkDatabase khamis_payments [walk_in_sale]) 10 0 = [].
Proof.
  assert (H : 0 < 10) by lia.
  split; [exact H |].
  exact (proj1 (inverted_range_gives_defaults stable_sortArray
                  (mkDatabase khamis_payments [walk_in_sale]) 10 0 H)).
Defined.

(** X9. A visit that is not resolved adds nothing to the clinic summary: the
    summary is the one computed without that record, whatever its services
    and its date. *)
Theorem unresolved_visit_contributes_nothing (payments : list Payment)
  (before after : list Sale) (v : Sale) (s e : Z) :
  isResolved v = false ->
  _get_clinic_report (mkDatabase payments (before ++ v :: after)) s e
  = _get_clinic_report (mkDatabase payments (before ++ after)) s e.
Proof.
  intros H. unfold _get_clinic_report, clinic_pipeline. simpl.
  rewrite (filter_drop _ _ _ v); [reflexivity |].
  unfold clinic_match. rewrite H. apply andb_false_r.
Qed.

Definition unresolved_visit : Sale :=
  mkSale 5 false false "walk-in" [ mkService "تنظيف" 70 1 ] [ mkItem "shampoo" 20 1 5 ].

Lemma unresolved_visit_instance :
  isResolved unresolved_visit = false
  /\ _get_clinic_report (mkDatabase [] ([walk_in_sale] ++ unresolved_visit :: [])) 0 10
     = _get_clinic_report (mkDatabase [] ([walk_in_sale] ++ [])) 0 10.
Proof.
  split; [reflexivity |].
  exact (unresolved_visit_contributes_nothing [] [walk_in_sale] [] unresolved_visit
           0 10 eq_refl).
Defined.

(** A [Sale] document with its contact name and its items replaced. *)
Definition with_contact_and_items (contact : Sale -> string) (its : Sale -> list Item)
  (d : Sale) : Sale :=
  mkSale (createdAt d) (isDeleted d) (isResolved d) (contact d) (services d) (its d).

(** A [Sale] document with its resolution flag and its services replaced. *)
Definition with_resolved_and_services (resolved : Sale -> bool)
  (svcs : Sale -> list Service) (d : Sale) : Sale :=
  mkSale (createdAt d) (isDeleted d) (resolved d) (contactName d) (svcs d) (items d).

(** X10. The clinic summary reads neither the contact name nor the items of
    a document: rewriting them in any way, on any documents, leaves the
    summary unchanged. In particular the exclusion list of the sales summary
    does not apply to it: the services of an excluded contact are counted. *)
Theorem clinic_report_ignores_contact_and_items (payments : list Payment)
  (sales : list Sale) (contact : Sale -> string) (its : Sale -> list Item) (s e : Z) :
  _get_clinic_report (mkDatabase payments (map (with_contact_and_items contact its) sales)) s e
  = _get_clinic_report (mkDatabase payments sales) s e.
Proof.
  rewrite !clinic_report_services. cbv zeta. simpl.
  assert (H : clinic_services s e (map (with_contact_and_items contact its) sales)
              = clinic_services s e sales).
  { unfold clinic_services. induction sales as [|d sales IH]; simpl; [reflexivity |].
    change (clinic_match s e (with_contact_and_items contact its d))
      with (clinic_match s e d).
    destruct (clinic_match s e d); simpl; rewrite IH; reflexivity. }
  rewrite H. reflexivity.
Qed.

(** X11. The sales summary reads neither the resolution flag nor the
    services of a document: an unresolved sale counts like a resolved one. *)
Theorem sales_report_ignores_resolution (sorter : SortArray) (payments : list Payment)
  (sales : list Sale) (resolved : Sale -> bool) (svcs : Sale -> list Service) (s e : Z) :
  _get_sales_report
    (mkDatabase payments (map (with_resolved_and_services resolved svcs) sales)) s e
  = _get_sales_report (mkDatabase payments sales) s e.
Proof.
  rewrite !sales_report_items. cbv zeta. cbn [coll_Sale].
  assert (H : sales_items s e (map (with_resolved_and_services resolved svcs) sales)
              = sales_items s e sales).
  { unfold sales_items. induction sales as [|d sales IH]; simpl; [reflexivity |].
    change (sales_match s e (with_resolved_and_services resolved svcs d))
      with (sales_match s e d).
    destruct (sales_match s e d); simpl; rewrite IH; reflexivity. }
  rewrite H. reflexivity.
Qed.

Lemma flat_map_drop {A B : Type} (f : A -> list B) (c : A -> bool)
  (l1 l2 : list A) (x : A) :
  f x = [] ->
  flat_map f (filter c (l1 ++ x :: l2)) = flat_map f (filter c (l1 ++ l2)).
Proof.
  intros Hx. rewrite !filter_app, !flat_map_app. simpl.
  destruct (c x); simpl; [rewrite Hx |]; reflexivity.
Qed.

(** X12. A document whose array is empty is dropped by [$unwind]: a visit
    without services adds nothing to the clinic summary and a sale without
    items adds nothing to the sales summary, even when it matches the filter.
    In particular a range whose only matching documents have empty arrays
    yields the defaults. *)
Theorem empty_array_contributes_nothing (sorter : SortArray) (payments : list Payment)
  (before after : list Sale) (d : Sale) (s e : Z) :
  (services d = [] ->
     _get_clinic_report (mkDatabase payments (before ++ d :: after)) s e
     = _get_clinic_report (mkDatabase payments (before ++ after)) s e)
  /\ (items d = [] ->
        _get_sales_report (mkDatabase payments (before ++ d :: after)) s e
        = _get_sales_report (mkDatabase payments (before ++ after)) s e).
Proof.
  split; intros H.
  - rewrite !clinic_report_services. cbv zeta. simpl. unfold clinic_services.
    rewrite (flat_map_drop services _ before after d H). reflexivity.
  - rewrite !sales_report_items. cbv zeta. cbn [coll_Sale]. unfold sales_items.
    rewrite (flat_map_drop items _ before after d H). reflexivity.
Qed.

Definition empty_sale : Sale := mkSale 5 false true "walk-in" [] [].

Lemma empty_array_instance :
  services empty_sale = [] /\ items empty_sale = []
  /\ _get_clinic_report (mkDatabase [] ([] ++ empty_sale :: [])) 0 10 = clinic_default
  /\ @_get_sales_report stable_sortArray (mkDatabase [] ([] ++ empty_sale :: [])) 0 10
     = sales_default.
Proof.
  split; [reflexivity |]. split; [reflexivity |].
  destruct (empty_array_contributes_nothing stable_sortArray [] [] [] empty_sale 0 10)
    as [H1 H2].
  split; [exact (H1 eq_refl) | exact (H2 eq_refl)].
Defined.



(** ** The text that the renderer returns *)










(** ** The renderer, case by case *)

(** The font file that ends up registered under the name 'Arabic': the
    configured one if it can be read, else "Arial" if that can be read. *)
Definition chosen_font (env : Env) : option string :=
  if font_file_readable env "assets/fonts/arabic.ttf" then Some "assets/fonts/arabic.ttf"
  else if font_file_readable env "Arial" then Some "Arial"
  else None.

(** The world after [file] was registered as 'Arabic'. *)
Definition registered (file : string) (w : World) : World :=
  mkWorld (trace w ++ [EvRegisterFont "Arabic" file]) (("Arabic", file) :: fonts w) (client w).

(** The world after one more event. *)
Definition after (ev : event) (w : World) : World :=
  mkWorld (trace w ++ [ev]) (fonts w) (client w).

Lemma setup_font_chosen (env : Env) (w : World) :
  _setup_arabic_font env w
  = match chosen_font env with
    | Some file => (inr tt, registered file w)
    | None => (inl (TTFError "Arial"), w)
    end.
Proof.
  unfold chosen_font.
  destruct (font_file_readable env "assets/fonts/arabic.ttf") eqn:E.
  - apply setup_font_primary. exact E.
  - rewrite (setup_font_fallback env w E).
    destruct (font_file_readable env "Arial"); reflexivity.
Qed.

Lemma generate_full_report_pdf_cases (env : Env)
  (payment : list PaymentReport.t) (clinic : ClinicReport.t) (sales : SalesReport.t)
  (s e : Z) (db_name : string) (w : World) :
  generate_full_report_pdf env payment clinic sales s e db_name w
  = match chosen_font env with
    | None => (inl (TTFError "Arial"), w)
    | Some file =>
        match doc_build env (("Arabic", file) :: fonts w)
                (report_elements env payment clinic sales s e db_name) with
        | inr pdf => (inr (PyStr (latin1 (b64encode pdf))), after EvBuild (registered file w))
        | inl err => (inl err, after EvBuild (registered file w))
        end
    end.
Proof.
  unfold generate_full_report_pdf, bind. rewrite setup_font_chosen.
  destruct (chosen_font env) as [file |]; [| reflexivity].
  unfold build, bind, emit, registered, after. cbn [trace fonts client].
  destruct (doc_build env (("Arabic", file) :: fonts w)
              (report_elements env payment clinic sales s e db_name)); reflexivity.
Qed.

(** X15. How the renderer ends. The configured font has precedence: when it
    can be read, "Arial" is never registered. The layout engine is run only
    after a font was registered under 'Arabic', and with that font at the head
    of the registry. A font registered for a document whose layout then fails
    stays registered: the error of the layout engine is raised as it is and
    the registry keeps the new entry. *)
Theorem renderer_font_and_layout_order (env : Env)
  (payment : list PaymentReport.t) (clinic : ClinicReport.t) (sales : SalesReport.t)
  (s e : Z) (db_name : string) (w : World) :
  let run := generate_full_report_pdf env payment clinic sales s e db_name w in
  let elements := report_elements env payment clinic sales s e db_name in
  (font_file_readable env "assets/fonts/arabic.ttf" = true ->
     fonts (snd run) = ("Arabic", "assets/fonts/arabic.ttf") :: fonts w
     /\ trace (snd run)
        = trace w ++ [EvRegisterFont "Arabic" "assets/fonts/arabic.ttf"; EvBuild])
  /\ (In EvBuild (skipn (List.length (trace w)) (trace (snd run))) ->
        exists file, font_file_readable env file = true
                     /\ fonts (snd run) = ("Arabic", file) :: fonts w)
  /\ (forall file err,
        chosen_font env = Some file ->
        doc_build env (("Arabic", file) :: fonts w) elements = inl err ->
        fst run = inl err /\ fonts (snd run) = ("Arabic", file) :: fonts w).
Proof.
  intros run elements. unfold run. rewrite generate_full_report_pdf_cases. fold elements.
  split; [| split].
  - intros Hp. unfold chosen_font. rewrite Hp.
    destruct (doc_build env _ elements); simpl; rewrite <- app_assoc; auto.
  - unfold chosen_font.
    destruct (font_file_readable env "assets/fonts/arabic.ttf") eqn:E1;
      [| destruct (font_file_readable env "Arial") eqn:E2].
    + intros _. exists "assets/fonts/arabic.ttf".
      destruct (doc_build env _ elements); simpl; auto.
    + intros _. exists "Arial". destruct (doc_build env _ elements); simpl; auto.
    + simpl. rewrite skipn_all. intros [].
  - intros file err Hc Hb. rewrite Hc, Hb. simpl. auto.
Qed.

Definition failing_layout_env : Env :=
  mkEnv None (fun _ _ => inr (mkDatabase khamis_payments [walk_in_sale]))
        (fun _ => true)
        (fun _ => "2024-01-01")
        (fun _ _ => inl (LayoutError "Flowable too large")).

Lemma renderer_font_and_layout_order_instance :
  font_file_readable failing_layout_env "assets/fonts/arabic.ttf" = true
  /\ fonts (snd (generate_full_report_pdf failing_layout_env [] clinic_default
                   sales_default 0 10 "Elanam-Baish" idle_world))
     = ("Arabic", "assets/fonts/arabic.ttf") :: fonts idle_world.
Proof.
  split; [reflexivity |].
  exact (proj1 (proj1 (renderer_font_and_layout_order failing_layout_env [] clinic_default
                         sales_default 0 10 "Elanam-Baish" idle_world) eq_refl)).
Defined.

(** ** The endpoint, case by case *)

(** The world after [db.connect(db_name)] returned. *)
Definition connected (db_name : string) (w : World) : World :=
  mkWorld (trace w ++ [EvConnect db_name]) (fonts w) (Some db_name).

(** The world after the three aggregations. *)
Definition aggregated (db_name : string) (w : World) : World :=
  after (EvAggregate "Sale")
    (after (EvAggregate "Sale") (after (EvAggregate "Payment") (connected db_name w))).

(** The world after the [finally] block. *)
Definition closed (w : World) : World :=
  match client w with
  | Some _ => after EvClose w
  | None => w
  end.

Lemma allow_list_values_truthy (k db_name : string) :
  dict_get DATABASE_MAP k = Some db_name -> truthy (Some db_name) = true.
Proof.
  unfold DATABASE_MAP. cbn [dict_get].
  destruct (String.eqb "khamis" k); [intros H; inversion H; reflexivity |].
  destruct (String.eqb "baish" k); [intros H; inversion H; reflexivity |].
  destruct (String.eqb "zapia" k); [intros H; inversion H; reflexivity | discriminate].
Qed.

Section EndpointCases.
Context {sorter : SortArray}.
Variable env : Env.

Lemma full_report_body_connect_fails (request : ReportRequest) (db_name : string)
  (w : World) (err : exn) :
  dict_get DATABASE_MAP (db_option request) = Some db_name ->
  connect_error env = Some err ->
  full_report_body env request w = (inl err, after (EvConnect db_name) w).
Proof.
  intros Hget Hconn. unfold full_report_body. rewrite Hget.
  rewrite (allow_list_values_truthy _ _ Hget).
  unfold bind at 1. unfold db_connect. rewrite Hconn. reflexivity.
Qed.

Lemma full_report_body_cases (request : ReportRequest) (db_name : string) (w : World) :
  dict_get DATABASE_MAP (db_option request) = Some db_name ->
  connect_error env = None ->
  full_report_body env request w
  = match store env db_name PaymentQuery with
    | inl err => (inl err, after (EvAggregate "Payment") (connected db_name w))
    | inr d1 =>
        match store env db_name ClinicQuery with
        | inl err =>
            (inl err,
             after (EvAggregate "Sale")
               (after (EvAggregate "Payment") (connected db_name w)))
        | inr d2 =>
            match store env db_name SalesQuery with
            | inl err => (inl err, aggregated db_name w)
            | inr d3 =>
                let payment :=
                  _get_payment_report d1 (start_date request) (end_date request) in
                let clinic :=
                  _get_clinic_report d2 (start_date request) (end_date request) in
                let sales :=
                  _get_sales_report d3 (start_date request) (end_date request) in
                match generate_full_report_pdf env payment clinic sales
                        (start_date request) (end_date request) db_name
                        (aggregated db_name w) with
                | (inl err, w') => (inl err, w')
                | (inr pdf, w') =>
                    match py_decode_latin1 pdf with
                    | inl err => (inl err, w')
                    | inr text => (inr (mkResponse true payment clinic sales text), w')
                    end
                end
            end
        end
    end.
Proof.
  intros Hget Hconn. unfold full_report_body. rewrite Hget.
  rewrite (allow_list_values_truthy _ _ Hget).
  unfold bind at 1. unfold db_connect. rewrite Hconn. fold (connected db_name w).
  unfold aggregate, bind, emit, lift, ret. cbn [trace fonts client].
  destruct (store env db_name PaymentQuery) as [err | d1]; [reflexivity |].
  destruct (store env db_name ClinicQuery) as [err | d2]; [reflexivity |].
  destruct (store env db_name SalesQuery) as [err | d3]; [reflexivity |].
  cbv zeta. unfold aggregated, after. cbn [trace fonts client].
  match goal with |- context [generate_full_report_pdf ?a ?b ?c ?d ?e ?f ?g ?h] =>
    destruct (generate_full_report_pdf a b c d e f g h) as [[err | pdf] w'] end;
    [reflexivity |].
  destruct (py_decode_latin1 pdf); reflexivity.
Qed.

(** The handler and the [finally] block after a body that raised. *)
Lemma full_report_after_raise (request : ReportRequest) (err : exn) (w w' : World) :
  full_report_body env request w = (inl err, w') ->
  generate_full_report env request w = (fst (full_report_handler err w'), closed w').
Proof.
  intros Hbody. unfold generate_full_report, try_finally, try_except.
  rewrite Hbody.
  assert (Hh : full_report_handler err w' = (fst (full_report_handler err w'), w'))
    by (destruct err; reflexivity).
  rewrite Hh. unfold db_close, closed. cbn [fst].
  destruct (client w'); reflexivity.
Qed.

End EndpointCases.

(** X16. For every key of the allow-list and every environment in which the
    connection is made, the three queries are answered, a font loads and the
    layout engine returns a document, the request ends in the server error 500
    with the message of the failed [decode]: the database was connected, the
    three queries were issued, the font was registered, the document was
    built, the connection was closed, and the reports and the document are
    thrown away. *)
Theorem working_request_ends_in_decode_error (sorter : SortArray) (env : Env)
  (request : ReportRequest) (w : World)
  (db_name file : string) (d1 d2 d3 : Database) (pdf : list Byte.byte) :
  dict_get DATABASE_MAP (db_option request) = Some db_name ->
  connect_error env = None ->
  store env db_name PaymentQuery = inr d1 ->
  store env db_name ClinicQuery = inr d2 ->
  store env db_name SalesQuery = inr d3 ->
  chosen_font env = Some file ->
  doc_build env (("Arabic", file) :: fonts w)
    (report_elements env
       (_get_payment_report d1 (start_date request) (end_date request))
       (_get_clinic_report d2 (start_date request) (end_date request))
       (_get_sales_report d3 (start_date request) (end_date request))
       (start_date request) (end_date request) db_name) = inr pdf ->
  let run := generate_full_report env request w in
  fst run = inl (HTTPException 500 "Server error: 'str' object has no attribute 'decode'")
  /\ trace (snd run)
     = trace w ++ [ EvConnect db_name;
                    EvAggregate "Payment"; EvAggregate "Sale"; EvAggregate "Sale";
                    EvRegisterFont "Arabic" file; EvBuild; EvClose ]
  /\ fonts (snd run) = ("Arabic", file) :: fonts w
  /\ client (snd run) = Some db_name.
Proof.
  intros Hget Hconn Hs1 Hs2 Hs3 Hfont Hbuild run.
  pose proof (full_report_body_cases env request db_name w Hget Hconn) as Hbody.
  rewrite Hs1, Hs2, Hs3 in Hbody. cbv zeta in Hbody.
  rewrite generate_full_report_pdf_cases, Hfont in Hbody.
  cbn [aggregated after registered connected fonts] in Hbody.
  rewrite Hbuild in Hbody. cbn [py_decode_latin1] in Hbody.
  unfold run. rewrite (full_report_after_raise env request _ w _ Hbody).
  cbn [fst snd full_report_handler raise str_exn closed after registered aggregated
       connected trace fonts client].
  split; [reflexivity |].
  split; [rewrite <- !app_assoc; reflexivity | split; reflexivity].
Qed.

Lemma working_request_instance :
  dict_get DATABASE_MAP (db_option khamis_request) = Some "Elanam-KhamisMushit"
  /\ connect_error arial_only_env = None
  /\ chosen_font arial_only_env = Some "Arial"
  /\ fst (@generate_full_report stable_sortArray arial_only_env khamis_request idle_world)
     = inl (HTTPException 500 "Server error: 'str' object has no attribute 'decode'").
Proof.
  split; [reflexivity |]. split; [reflexivity |]. split; [reflexivity |].
  exact (proj1 (working_request_ends_in_decode_error stable_sortArray arial_only_env
                  khamis_request idle_world "Elanam-KhamisMushit" "Arial"
                  (mkDatabase khamis_payments [walk_in_sale])
                  (mkDatabase khamis_payments [walk_in_sale])
                  (mkDatabase khamis_payments [walk_in_sale])
                  [Byte.x25; Byte.x50; Byte.x44; Byte.x46]
                  eq_refl eq_refl eq_refl eq_refl eq_refl eq_refl eq_refl)).
Defined.

(** X17. When one of the three queries fails, whichever it is, the request
    ends in the server error 500 whose detail is "Server error: " followed by
    the message of the failure. The queries before it were issued and
    answered, the queries after it are not issued, no font is registered,
    nothing is laid out, and the connection is closed. *)
Theorem data_source_failure_ends_in_500 (sorter : SortArray) (env : Env)
  (request : ReportRequest) (w : World) (db_name msg : string) :
  dict_get DATABASE_MAP (db_option request) = Some db_name ->
  connect_error env = None ->
  let run := generate_full_report env request w in
  let failed (issued : list event) :=
    fst run = inl (HTTPException 500 ("Server error: " ++ msg))
    /\ trace (snd run) = trace w ++ EvConnect db_name :: issued ++ [EvClose]
    /\ fonts (snd run) = fonts w in
  (store env db_name PaymentQuery = inl (DataSourceError msg) ->
     failed [EvAggregate "Payment"])
  /\ (forall d1,
        store env db_name PaymentQuery = inr d1 ->
        store env db_name ClinicQuery = inl (DataSourceError msg) ->
        failed [EvAggregate "Payment"; EvAggregate "Sale"])
  /\ (forall d1 d2,
        store env db_name PaymentQuery = inr d1 ->
        store env db_name ClinicQuery = inr d2 ->
        store env db_name SalesQuery = inl (DataSourceError msg) ->
        failed [EvAggregate "Payment"; EvAggregate "Sale"; EvAggregate "Sale"]).
Proof.
  intros Hget Hconn run failed.
  pose proof (full_report_body_cases env request db_name w Hget Hconn) as Hbody.
  unfold failed, run. split; [| split].
  - intros Hs1. rewrite Hs1 in Hbody.
    rewrite (full_report_after_raise env request _ w _ Hbody).
    cbn [fst snd full_report_handler raise str_exn closed after connected
         trace fonts client].
    split; [reflexivity |].
    split; [rewrite <- !app_assoc; reflexivity | reflexivity].
  - intros d1 Hs1 Hs2. rewrite Hs1, Hs2 in Hbody.
    rewrite (full_report_after_raise env request _ w _ Hbody).
    cbn [fst snd full_report_handler raise str_exn closed after connected
         trace fonts client].
    split; [reflexivity |].
    split; [rewrite <- !app_assoc; reflexivity | reflexivity].
  - intros d1 d2 Hs1 Hs2 Hs3. rewrite Hs1, Hs2, Hs3 in Hbody.
    rewrite (full_report_after_raise env request _ w _ Hbody).
    cbn [fst snd full_report_handler raise str_exn closed after aggregated connected
         trace fonts client].
    split; [reflexivity |].
    split; [rewrite <- !app_assoc; reflexivity | reflexivity].
Qed.

(** Every query fails. *)
Definition unreachable_env : Env :=
  mkEnv None (fun _ _ => inl (DataSourceError "connection refused"))
        (fun _ => true)
        (fun _ => "2024-01-01")
        (fun _ _ => inr [Byte.x25; Byte.x50; Byte.x44; Byte.x46]).

(** The first query is answered, the second fails. *)
Definition second_query_fails_env : Env :=
  mkEnv None
        (fun _ q =>
           match q with
           | PaymentQuery => inr (mkDatabase khamis_payments [walk_in_sale])
           | _ => inl (DataSourceError "cursor timed out")
           end)
        (fun _ => true)
        (fun _ => "2024-01-01")
        (fun _ _ => inr [Byte.x25; Byte.x50; Byte.x44; Byte.x46]).

(** [MongoClient(uri)] raises. *)
Definition no_connection_env : Env :=
  mkEnv (Some (DataSourceError "DNS lookup failed"))
        (fun _ _ => inr (mkDatabase khamis_payments [walk_in_sale]))
        (fun _ => true)
        (fun _ => "2024-01-01")
        (fun _ _ => inr [Byte.x25; Byte.x50; Byte.x44; Byte.x46]).

Lemma data_source_failure_instance :
  dict_get DATABASE_MAP (db_option khamis_request) = Some "Elanam-KhamisMushit"
  /\ connect_error second_query_fails_env = None
  /\ store second_query_fails_env "Elanam-KhamisMushit" ClinicQuery
     = inl (DataSourceError "cursor timed out")
  /\ fst (@generate_full_report stable_sortArray second_query_fails_env
            khamis_request idle_world)
     = inl (HTTPException 500 "Server error: cursor timed out")
  /\ trace (snd (@generate_full_report stable_sortArray second_query_fails_env
                   khamis_request idle_world))
     = [ EvConnect "Elanam-KhamisMushit"; EvAggregate "Payment"; EvAggregate "Sale";
         EvClose ].
Proof.
  split; [reflexivity |]. split; [reflexivity |]. split; [reflexivity |].
  destruct (proj1 (proj2 (data_source_failure_ends_in_500 stable_sortArray
                            second_query_fails_env khamis_request idle_world
                            "Elanam-KhamisMushit" "cursor timed out" eq_refl eq_refl))
                  (mkDatabase khamis_payments [walk_in_sale]) eq_refl eq_refl)
    as [H1 [H2 _]].
  split; [exact H1 | exact H2].
Defined.

(** X18. When the renderer fails, by the layout engine or because no font
    can be read, the request ends in the server error 500 with the message of
    that failure, after the three queries were answered: the reports that were
    computed are not returned. *)
Theorem rendering_failure_ends_in_500 (sorter : SortArray) (env : Env)
  (request : ReportRequest) (w : World) (db_name : string) (d1 d2 d3 : Database) :
  dict_get DATABASE_MAP (db_option request) = Some db_name ->
  connect_error env = None ->
  store env db_name PaymentQuery = inr d1 ->
  store env db_name ClinicQuery = inr d2 ->
  store env db_name SalesQuery = inr d3 ->
  let run := generate_full_report env request w in
  let elements :=
    report_elements env
      (_get_payment_report d1 (start_date request) (end_date request))
      (_get_clinic_report d2 (start_date request) (end_date request))
      (_get_sales_report d3 (start_date request) (end_date request))
      (start_date request) (end_date request) db_name in
  (chosen_font env = None ->
     fst run = inl (HTTPException 500
                      ("Server error: Can't open file " ++ dquote ++ "Arial" ++ dquote))
     /\ trace (snd run)
        = trace w ++ [ EvConnect db_name;
                       EvAggregate "Payment"; EvAggregate "Sale"; EvAggregate "Sale";
                       EvClose ])
  /\ (forall file msg,
        chosen_font env = Some file ->
        doc_build env (("Arabic", file) :: fonts w) elements = inl (LayoutError msg) ->
        fst run = inl (HTTPException 500 ("Server error: " ++ msg))
        /\ trace (snd run)
           = trace w ++ [ EvConnect db_name;
                          EvAggregate "Payment"; EvAggregate "Sale"; EvAggregate "Sale";
                          EvRegisterFont "Arabic" file; EvBuild; EvClose ]).
Proof.
  intros Hget Hconn Hs1 Hs2 Hs3 run elements.
  pose proof (full_report_body_cases env request db_name w Hget Hconn) as Hbody.
  rewrite Hs1, Hs2, Hs3 in Hbody. cbv zeta in Hbody.
  rewrite generate_full_report_pdf_cases in Hbody. fold elements in Hbody.
  split.
  - intros Hfont. rewrite Hfont in Hbody.
    unfold run. rewrite (full_report_after_raise env request _ w _ Hbody).
    cbn [fst snd full_report_handler raise str_exn closed after aggregated connected
         trace fonts client].
    split; [reflexivity |]. rewrite <- !app_assoc. reflexivity.
  - intros file msg Hfont Hbuild. rewrite Hfont in Hbody.
    cbn [aggregated after registered connected fonts] in Hbody.
    rewrite Hbuild in Hbody.
    unfold run. rewrite (full_report_after_raise env request _ w _ Hbody).
    cbn [fst snd full_report_handler raise str_exn closed after registered aggregated
         connected trace fonts client].
    split; [reflexivity |]. rewrite <- !app_assoc. reflexivity.
Qed.

Lemma rendering_failure_instance :
  dict_get DATABASE_MAP (db_option khamis_request) = Some "Elanam-KhamisMushit"
  /\ connect_error failing_layout_env = None
  /\ chosen_font failing_layout_env = Some "assets/fonts/arabic.ttf"
  /\ fst (@generate_full_report stable_sortArray failing_layout_env khamis_request idle_world)
     = inl (HTTPException 500 "Server error: Flowable too large").
Proof.
  split; [reflexivity |]. split; [reflexivity |]. split; [reflexivity |].
  exact (proj1 (proj2 (rendering_failure_ends_in_500 stable_sortArray failing_layout_env
                         khamis_request idle_world "Elanam-KhamisMushit"
                         (mkDatabase khamis_payments [walk_in_sale])
                         (mkDatabase khamis_payments [walk_in_sale])
                         (mkDatabase khamis_payments [walk_in_sale])
                         eq_refl eq_refl eq_refl eq_refl eq_refl)
                      "assets/fonts/arabic.ttf" "Flowable too large" eq_refl eq_refl)).
Defined.

(** ** The connection over a request *)

(** Events that neither open nor close a connection. *)
Definition quiet (evs : list event) : Prop :=
  Forall (fun ev => match ev with
                    | EvClose | EvConnect _ => False
                    | _ => True
                    end) evs.

Lemma quiet_no_connect_no_close (evs : list event) (db_name : string) :
  quiet evs -> ~ In EvClose evs /\ ~ In (EvConnect db_name) evs.
Proof.
  unfold quiet. intros Hall. rewrite Forall_forall in Hall.
  split; intros Hin; exact (Hall _ Hin).
Qed.

Section ConnectionCases.
Context {sorter : SortArray}.
Variable env : Env.

(** Once the connection is made, the body raises on every path, with the
    client in place and only queries, font registrations and layout behind
    it. *)
Lemma full_report_body_connected (request : ReportRequest) (w : World)
  (db_name : string) :
  dict_get DATABASE_MAP (db_option request) = Some db_name ->
  connect_error env = None ->
  exists err w' between,
    full_report_body env request w = (inl err, w')
    /\ client w' = Some db_name
    /\ trace w' = trace w ++ EvConnect db_name :: between
    /\ quiet between.
Proof.
  intros Hget Hconn. rewrite (full_report_body_cases env request db_name w Hget Hconn).
  destruct (store env db_name PaymentQuery) as [err | d1].
  { exists err, (after (EvAggregate "Payment") (connected db_name w)),
           [EvAggregate "Payment"].
    cbn [after connected trace client].
    repeat split; [rewrite <- !app_assoc; reflexivity | repeat constructor]. }
  destruct (store env db_name ClinicQuery) as [err | d2].
  { exists err,
           (after (EvAggregate "Sale")
              (after (EvAggregate "Payment") (connected db_name w))),
           [EvAggregate "Payment"; EvAggregate "Sale"].
    cbn [after connected trace client].
    repeat split; [rewrite <- !app_assoc; reflexivity | repeat constructor]. }
  destruct (store env db_name SalesQuery) as [err | d3].
  { exists err, (aggregated db_name w),
           [EvAggregate "Payment"; EvAggregate "Sale"; EvAggregate "Sale"].
    cbn [aggregated after connected trace client].
    repeat split; [rewrite <- !app_assoc; reflexivity | repeat constructor]. }
  cbv zeta. rewrite generate_full_report_pdf_cases.
  destruct (chosen_font env) as [file |].
  - cbn [aggregated after registered connected fonts].
    match goal with |- context [doc_build ?a ?b ?c] =>
      destruct (doc_build a b c) as [err | pdf] end; cbn [py_decode_latin1];
      eexists _, _,
        [EvAggregate "Payment"; EvAggregate "Sale"; EvAggregate "Sale";
         EvRegisterFont "Arabic" file; EvBuild];
      (split; [reflexivity |]); cbn [after registered aggregated connected trace client];
      (repeat split; [rewrite <- !app_assoc; reflexivity | repeat constructor]).
  - exists (TTFError "Arial"), (aggregated db_name w),
           [EvAggregate "Payment"; EvAggregate "Sale"; EvAggregate "Sale"].
    cbn [aggregated after connected trace client].
    repeat split; [rewrite <- !app_assoc; reflexivity | repeat constructor].
Qed.

Lemma rejected_request_run (request : ReportRequest) (w : World) :
  dict_get DATABASE_MAP (db_option request) = None ->
  generate_full_report env request w
  = (inl (HTTPException 400 "Invalid database option"), closed w).
Proof.
  intros Hget. unfold generate_full_report, try_finally, try_except, full_report_body.
  rewrite Hget. unfold raise, full_report_handler, raise, db_close, emit, closed, after.
  destruct (client w); reflexivity.
Qed.

End ConnectionCases.

(** X19. Every request with a key of the allow-list starts by calling the
    client constructor for the database mapped to the key. When the
    constructor returns, the request, whatever the queries, the fonts and the
    layout engine do afterwards, ends by closing that connection: one connect
    first, one close last, and [db.client] still holds the client, since
    closing does not reset it. When the constructor raises, no client is
    assigned: no query is issued, [db.client] keeps what it held, the
    [finally] block closes only a client left by an earlier request, and the
    request ends in the server error 500 with the message of the failure. *)
Theorem connection_opened_first_closed_last (sorter : SortArray) (env : Env)
  (request : ReportRequest) (w : World) (db_name : string) :
  dict_get DATABASE_MAP (db_option request) = Some db_name ->
  let run := generate_full_report env request w in
  (connect_error env = None ->
     (exists between,
         trace (snd run) = trace w ++ EvConnect db_name :: between ++ [EvClose]
         /\ ~ In EvClose between /\ ~ In (EvConnect db_name) between)
     /\ client (snd run) = Some db_name)
  /\ (forall msg,
        connect_error env = Some (DataSourceError msg) ->
        fst run = inl (HTTPException 500 ("Server error: " ++ msg))
        /\ trace (snd run)
           = trace w ++ EvConnect db_name
                        :: match client w with Some _ => [EvClose] | None => [] end
        /\ client (snd run) = client w
        /\ fonts (snd run) = fonts w).
Proof.
  intros Hget run. unfold run. split.
  - intros Hconn.
    destruct (full_report_body_connected env request w db_name Hget Hconn)
      as [err [w' [between [Hbody [Hclient [Htrace Hquiet]]]]]].
    rewrite (full_report_after_raise env request err w w' Hbody).
    unfold closed. rewrite Hclient. cbn [snd after trace client].
    split; [| exact Hclient]. exists between.
    split; [rewrite Htrace, <- app_assoc; reflexivity |].
    apply quiet_no_connect_no_close. exact Hquiet.
  - intros msg Hconn.
    pose proof (full_report_body_connect_fails env request db_name w _ Hget Hconn) as Hbody.
    rewrite (full_report_after_raise env request _ w _ Hbody).
    unfold closed. cbn [fst full_report_handler raise str_exn after client].
    destruct (client w) eqn:Hc; cbn [snd after trace fonts client];
      rewrite ?Hc, <- ?app_assoc; auto.
Qed.

Lemma connection_lifecycle_instance :
  dict_get DATABASE_MAP (db_option (mkRequest "zapia" 0 10)) = Some "Elanam-Zapia"
  /\ connect_error unreachable_env = None
  /\ client (snd (@generate_full_report stable_sortArray unreachable_env
                    (mkRequest "zapia" 0 10) idle_world))
     = Some "Elanam-Zapia"
  /\ connect_error no_connection_env = Some (DataSourceError "DNS lookup failed")
  /\ snd (@generate_full_report stable_sortArray no_connection_env
            (mkRequest "zapia" 0 10) idle_world)
     = mkWorld [EvConnect "Elanam-Zapia"] [] None.
Proof.
  split; [reflexivity |]. split; [reflexivity |].
  split; [exact (proj2 (proj1 (connection_opened_first_closed_last stable_sortArray
                                 unreachable_env (mkRequest "zapia" 0 10) idle_world
                                 "Elanam-Zapia" eq_refl) eq_refl)) |].
  split; reflexivity.
Defined.

(** ** The shape of the rendered document *)

Definition is_table (f : flowable) : bool :=
  match f with Table _ _ => true | _ => false end.

Definition is_page_break (f : flowable) : bool :=
  match f with PageBreak => true | _ => false end.

(** X20. The document always has four sections separated by exactly three
    page breaks. The payment table and the clinic table are always there, the
    payment table with its header row alone when there is no payment row; the
    "best products" paragraph and table are there exactly when topProducts is
    not empty, and the document has 18 flowables without them and 20 with
    them. *)
Theorem document_sections_and_tables (env : Env)
  (payment : list PaymentReport.t) (clinic : ClinicReport.t) (sales : SalesReport.t)
  (s e : Z) (db_name : string) :
  let elements := report_elements env payment clinic sales s e db_name in
  List.length (filter is_page_break elements) = 3%nat
  /\ In (Table (payment_table payment) 1) elements
  /\ List.length (payment_table payment) = S (List.length payment)
  /\ In (Table (clinic_table clinic) 0) elements
  /\ (SalesReport.topProducts sales = [] ->
        List.length elements = 18%nat
        /\ List.length (filter is_table elements) = 2%nat)
  /\ (SalesReport.topProducts sales <> [] ->
        List.length elements = 20%nat
        /\ List.length (filter is_table elements) = 3%nat
        /\ nth_error elements 19
           = Some (Table (products_table (SalesReport.topProducts sales)) 1)
        /\ List.length (products_table (SalesReport.topProducts sales))
           = S (List.length (SalesReport.topProducts sales))).
Proof.
  intros elements. unfold elements. rewrite report_elements_layout.
  unfold products_elements, fixed_elements.
  split; [destruct (SalesReport.topProducts sales); reflexivity |].
  split; [apply in_or_app; left; in_list |].
  split; [unfold payment_table; simpl; rewrite length_map; reflexivity |].
  split; [apply in_or_app; left; in_list |].
  split.
  - intros ->. split; reflexivity.
  - intros Hne. destruct (SalesReport.topProducts sales) as [|p top] eqn:E;
      [contradiction |].
    repeat split. unfold products_table. cbn [List.length]. rewrite length_map. reflexivity.
Qed.

Lemma document_sections_instance :
  SalesReport.topProducts sales_default = []
  /\ List.length (report_elements working_env [] clinic_default sales_default
                    0 10 "Elanam-Baish") = 18%nat.
Proof.
  split; [reflexivity |].
  exact (proj1 (proj1 (proj2 (proj2 (proj2 (proj2
           (document_sections_and_tables working_env [] clinic_default sales_default
              0 10 "Elanam-Baish"))))) eq_refl)).
Defined.

(** X21. Every table of the document is rectangular and not empty: all the
    rows of a table have as many cells as its header row, 4 in the payment
    table, 2 in the clinic table and 3 in the products table, whatever the
    data. *)
Theorem tables_are_rectangular (env : Env)
  (payment : list PaymentReport.t) (clinic : ClinicReport.t) (sales : SalesReport.t)
  (s e : Z) (db_name : string) (data : list (list text)) (repeat_rows : Z) :
  In (Table data repeat_rows) (report_elements env payment clinic sales s e db_name) ->
  exists header rest (columns : nat),
    data = header :: rest
    /\ Forall (fun row => List.length row = columns) data
    /\ (data = payment_table payment /\ columns = 4%nat /\ repeat_rows = 1
        \/ data = clinic_table clinic /\ columns = 2%nat /\ repeat_rows = 0
        \/ data = products_table (SalesReport.topProducts sales)
           /\ columns = 3%nat /\ repeat_rows = 1).
Proof.
  rewrite report_elements_layout. intros Hin. apply in_app_or in Hin.
  destruct Hin as [Hin | Hin].
  - unfold fixed_elements in Hin. simpl in Hin.
    repeat (destruct Hin as [Hin | Hin]; [try discriminate Hin |]); try contradiction.
    + inversion Hin; subst. eexists _, _, 4%nat.
      split; [reflexivity |]. split; [| left; auto].
      unfold payment_table. constructor; [reflexivity |].
      apply Forall_forall. intros row Hrow. apply in_map_iff in Hrow.
      destruct Hrow as [item [<- _]]. reflexivity.
    + inversion Hin; subst. eexists _, _, 2%nat.
      split; [reflexivity |]. split; [| right; left; auto].
      unfold clinic_table. repeat constructor.
  - unfold products_elements in Hin.
    destruct (SalesReport.topProducts sales) as [|p top] eqn:E; [contradiction |].
    destruct Hin as [Hin | [Hin | []]]; [discriminate Hin |].
    inversion Hin; subst. eexists _, _, 3%nat.
    split; [reflexivity |]. split; [| right; right; auto].
    unfold products_table. constructor; [reflexivity |].
    apply Forall_forall. intros row Hrow. apply in_map_iff in Hrow.
    destruct Hrow as [q [<- _]]. reflexivity.
Qed.

Lemma tables_are_rectangular_instance :
  In (Table (clinic_table clinic_default) 0)
     (report_elements working_env [] clinic_default sales_default 0 10 "Elanam-Baish")
  /\ exists header rest (columns : nat),
       clinic_table clinic_default = header :: rest
       /\ Forall (fun row => List.length row = columns) (clinic_table clinic_default)
       /\ (clinic_table clinic_default = payment_table [] /\ columns = 4%nat /\ 0 = 1
           \/ clinic_table clinic_default = clinic_table clinic_default
              /\ columns = 2%nat /\ 0 = 0
           \/ clinic_table clinic_default
              = products_table (SalesReport.topProducts sales_default)
              /\ columns = 3%nat /\ 0 = 1).
Proof.
  assert (H : In (Table (clinic_table clinic_default) 0)
                (report_elements working_env [] clinic_default sales_default
                   0 10 "Elanam-Baish")).
  { rewrite report_elements_layout. apply in_or_app. left. unfold fixed_elements. in_list. }
  split; [exact H |].
  exact (tables_are_rectangular working_env [] clinic_default sales_default
           0 10 "Elanam-Baish" _ _ H).
Defined.

(** ** The client across requests *)

(** X22. Closing does not forget the client, and a failed connection does
    not replace it. Before any connection a rejected request touches nothing
    at all. Once a request with a key of the allow-list has connected,
    however it ended afterwards, every later rejected request answers 400 and
    closes the client of that earlier request once more, doing nothing else.
    A request whose connection attempt raised leaves [db.client] as it was. *)
Theorem rejected_request_closes_stale_client (sorter : SortArray) (env : Env)
  (earlier rejected : ReportRequest) (w : World) (db_name : string) :
  dict_get DATABASE_MAP (db_option earlier) = Some db_name ->
  dict_get DATABASE_MAP (db_option rejected) = None ->
  let w1 := snd (generate_full_report env earlier w) in
  (client w = None -> snd (generate_full_report env rejected w) = w)
  /\ (connect_error env = None ->
        fst (generate_full_report env rejected w1)
        = inl (HTTPException 400 "Invalid database option")
        /\ trace (snd (generate_full_report env rejected w1)) = trace w1 ++ [EvClose]
        /\ client (snd (generate_full_report env rejected w1)) = Some db_name)
  /\ (forall err, connect_error env = Some err -> client w1 = client w).
Proof.
  intros Hvalid Hrej w1. split; [| split].
  - intros Hnone. rewrite (rejected_request_run env rejected w Hrej).
    unfold closed. rewrite Hnone. reflexivity.
  - intros Hconn.
    destruct (full_report_body_connected env earlier w db_name Hvalid Hconn)
      as [err [w' [between [Hbody [Hclient _]]]]].
    assert (Hc1 : client w1 = Some db_name).
    { unfold w1. rewrite (full_report_after_raise env earlier err w w' Hbody).
      unfold closed. rewrite Hclient. exact Hclient. }
    rewrite (rejected_request_run env rejected w1 Hrej).
    unfold closed. rewrite Hc1. cbn [fst snd after trace client]. auto.
  - intros err Hconn. unfold w1.
    pose proof (full_report_body_connect_fails env earlier db_name w err Hvalid Hconn)
      as Hbody.
    rewrite (full_report_after_raise env earlier _ w _ Hbody).
    unfold closed. cbn [after client].
    destruct (client w) eqn:Hc; cbn [snd after client]; rewrite ?Hc; reflexivity.
Qed.

Lemma rejected_request_closes_stale_client_instance :
  dict_get DATABASE_MAP (db_option khamis_request) = Some "Elanam-KhamisMushit"
  /\ dict_get DATABASE_MAP (db_option (mkRequest "other" 0 10)) = None
  /\ connect_error unreachable_env = None
  /\ trace (snd (@generate_full_report stable_sortArray unreachable_env
                   (mkRequest "other" 0 10)
                   (snd (@generate_full_report stable_sortArray unreachable_env
                           khamis_request idle_world))))
     = trace (snd (@generate_full_report stable_sortArray unreachable_env
                     khamis_request idle_world)) ++ [EvClose].
Proof.
  split; [reflexivity |]. split; [reflexivity |]. split; [reflexivity |].
  exact (proj1 (proj2 (proj1 (proj2 (rejected_request_closes_stale_client stable_sortArray
                                unreachable_env khamis_request (mkRequest "other" 0 10)
                                idle_world "Elanam-KhamisMushit" eq_refl eq_refl))
                             eq_refl))).
Defined.

(** ** Labels of the payment table *)

(** X23. The payment table knows two method labels only: a row is labelled
    "network" when its method is exactly the string "network", and "cash" for
    every other method, whatever it is. Two rows of the same direction whose
    methods are both different from "network" therefore show the same type and
    method cells, even when their methods differ. *)
Theorem payment_rows_of_other_methods_look_alike (r1 r2 : PaymentReport.t) :
  PaymentReport.method r1 <> "network" ->
  PaymentReport.method r2 <> "network" ->
  PaymentReport.isOutgoing r1 = PaymentReport.isOutgoing r2 ->
  nth_error (payment_row r1) 1 = Some (_ar "كاش")
  /\ firstn 2 (payment_row r1) = firstn 2 (payment_row r2).
Proof.
  intros H1 H2 Hdir. unfold payment_row. cbn [nth_error firstn]. rewrite Hdir.
  apply String.eqb_neq in H1, H2. rewrite H1, H2. split; reflexivity.
Qed.

Lemma payment_rows_look_alike_instance :
  "cash" <> "network" /\ "transfer" <> "network"
  /\ firstn 2 (payment_row (PaymentReport.mk "cash" false 150 2))
     = firstn 2 (payment_row (PaymentReport.mk "transfer" false 80 1)).
Proof.
  assert (H1 : "cash" <> "network") by discriminate.
  assert (H2 : "transfer" <> "network") by discriminate.
  split; [exact H1 |]. split; [exact H2 |].
  exact (proj2 (payment_rows_of_other_methods_look_alike
                  (PaymentReport.mk "cash" false 150 2)
                  (PaymentReport.mk "transfer" false 80 1) H1 H2 eq_refl)).
Defined.

(** ** [app/database.py]: the constructor of [MongoDB] *)

Module MongoDB.

Record t := mk {
  username : string;
  password : string;
  uri : string;
  client : option string
}.

Inductive error : Type := ValueError (msg : string).

(** [MongoDB.__init__], with [os.getenv] as a function: [None] for a variable
    that is not set. *)
Definition init (getenv : string -> option string) : error + t :=
  let username := getenv "MONGO_USERNAME" in
  let password := getenv "MONGO_PASSWORD" in
  if negb (truthy username) || negb (truthy password)
  then inl (ValueError "MongoDB username or password is missing. Please set MONGO_USERNAME and MONGO_PASSWORD.")
  else
    match username, password with
    | Some u, Some p =>
        inr (mk u p ("mongodb+srv://" ++ u ++ ":" ++ p ++ "@ivc-cluster.2nmzm9h.mongodb.net/")
                None)
    | _, _ =>
        inl (ValueError "MongoDB username or password is missing. Please set MONGO_USERNAME and MONGO_PASSWORD.")
    end.

End MongoDB.

Lemma truthy_iff (v : option string) :
  truthy v = true <-> exists s, v = Some s /\ s <> EmptyString.
Proof.
  destruct v as [s |]; simpl.
  - rewrite negb_true_iff, String.eqb_neq. split.
    + intros H. exists s. auto.
    + intros [s' [Heq Hne]]. inversion Heq. subst. exact Hne.
  - split; [discriminate | intros [s [H _]]; discriminate].
Qed.

(** X25. Constructing the database object succeeds exactly when both
    MONGO_USERNAME and MONGO_PASSWORD are set to non-empty strings; a variable
    that is unset or set to the empty string makes it raise ValueError. On
    success the connection string holds both values verbatim between the
    scheme and the cluster host, and no client exists yet. *)
Theorem mongodb_init_needs_both_credentials (getenv : string -> option string) :
  ((exists m, MongoDB.init getenv = inr m)
   <-> (exists u p, getenv "MONGO_USERNAME" = Some u /\ u <> EmptyString
                    /\ getenv "MONGO_PASSWORD" = Some p /\ p <> EmptyString))
  /\ (forall m, MongoDB.init getenv = inr m ->
        getenv "MONGO_USERNAME" = Some (MongoDB.username m)
        /\ getenv "MONGO_PASSWORD" = Some (MongoDB.password m)
        /\ MongoDB.uri m
           = ("mongodb+srv://" ++ MongoDB.username m ++ ":" ++ MongoDB.password m
              ++ "@ivc-cluster.2nmzm9h.mongodb.net/")%string
        /\ MongoDB.client m = None)
  /\ (forall err, MongoDB.init getenv = inl err ->
        err = MongoDB.ValueError "MongoDB username or password is missing. Please set MONGO_USERNAME and MONGO_PASSWORD.").
Proof.
  unfold MongoDB.init.
  pose proof (truthy_iff (getenv "MONGO_USERNAME")) as Hu.
  pose proof (truthy_iff (getenv "MONGO_PASSWORD")) as Hp.
  destruct (truthy (getenv "MONGO_USERNAME")) eqn:Eu;
    destruct (truthy (getenv "MONGO_PASSWORD")) eqn:Ep; cbn [negb orb].
  - destruct (proj1 Hu eq_refl) as [u [Hgu Hne_u]].
    destruct (proj1 Hp eq_refl) as [p [Hgp Hne_p]].
    rewrite Hgu, Hgp. split; [| split].
    + split; [intros _; exists u, p; auto | intros _; eexists; reflexivity].
    + intros m Hm. inversion Hm. subst. simpl. auto.
    + intros err Herr. discriminate.
  - split; [| split].
    + split; [intros [m Hm]; discriminate |].
      intros [u [p [_ [_ [Hgp Hne]]]]].
      assert (false = true) by (apply Hp; eauto). discriminate.
    + intros m Hm. discriminate.
    + intros err Herr. inversion Herr. reflexivity.
  - split; [| split].
    + split; [intros [m Hm]; discriminate |].
      intros [u [p [Hgu [Hne _]]]].
      assert (false = true) by (apply Hu; eauto). discriminate.
    + intros m Hm. discriminate.
    + intros err Herr. inversion Herr. reflexivity.
  - split; [| split].
    + split; [intros [m Hm]; discriminate |].
      intros [u [p [Hgu [Hne _]]]].
      assert (false = true) by (apply Hu; eauto). discriminate.
    + intros m Hm. discriminate.
    + intros err Herr. inversion Herr. reflexivity.
Qed.

(** * The payment summary over the stored number type

    The pipeline sums whatever BSON number the [amount] field holds, and
    [models.py] declares [totalAmount] as [float]. The stage definitions below
    are those of [_get_payment_report] again, with the amount in a number type
    that is a parameter: the integers used so far, or binary64 doubles. *)

From Stdlib Require PrimFloat SpecFloat FloatOps QArith.

(** A BSON number type: the zero that [$sum] starts from and the addition it
    accumulates with. *)
Class Number := {
  num : Type;
  num_zero : num;
  num_add : num -> num -> num
}.

(** 32- and 64-bit integers, without overflow. *)
Definition Int_number : Number :=
  {| num := Z; num_zero := 0; num_add := Z.add |}.

(** Doubles: IEEE 754 binary64 with round-to-nearest-even addition. *)
Definition Double_number : Number :=
  {| num := PrimFloat.float; num_zero := PrimFloat.zero; num_add := PrimFloat.add |}.

Module Stored.
Section WithNumber.
Context {N : Number}.

(** A document of the [Payment] collection. *)
Record Payment := mkPayment {
  createdAt : Z;
  isDeleted : bool;
  method : string;
  isOutgoing : bool;
  amount : num
}.

(** One output document of the pipeline. *)
Record Row := mkRow {
  r_method : string;
  r_isOutgoing : bool;
  totalAmount : num;
  transactionCount : Z
}.

(** [$match] *)
Definition matches (start_date end_date : Z) (p : Payment) : bool :=
  in_range start_date end_date (createdAt p) && negb (isDeleted p).

(** The [_id] of the [$group] stage. *)
Definition id_of (p : Payment) : group_id := (method p, isOutgoing p).

Record Group := mkGroup {
  g_key : group_id;
  g_total : num;
  g_count : Z
}.

(** One document reaches the [$group] stage: [$sum: "$amount"] adds its
    amount to the total of its group, a new group starting from zero;
    [$sum: 1] counts it. *)
Fixpoint group_add (k : group_id) (a : num) (gs : list Group) : list Group :=
  match gs with
  | [] => [mkGroup k (num_add num_zero a) 1]
  | g :: rest =>
      if group_id_eqb (g_key g) k
      then mkGroup (g_key g) (num_add (g_total g) a) (g_count g + 1) :: rest
      else g :: group_add k a rest
  end.

Definition group_all (docs : list Payment) : list Group :=
  fold_left (fun gs p => group_add (id_of p) (amount p) gs) docs [].

(** [$project] *)
Definition project (g : Group) : Row :=
  mkRow (fst (g_key g)) (snd (g_key g)) (g_total g) (g_count g).

Definition report (docs : list Payment) (start_date end_date : Z) : list Row :=
  map project (group_all (filter (matches start_date end_date) docs)).

(** The key of a row. *)
Definition key_of (r : Row) : group_id := (r_method r, r_isOutgoing r).

(** The matched documents of a group, in arrival order. *)
Definition members_of (k : group_id) (docs : list Payment) : list Payment :=
  filter (fun p => group_id_eqb (id_of p) k) docs.

(** The amounts added one after the other, from zero. *)
Definition accumulate (amounts : list num) : num :=
  fold_left num_add amounts num_zero.

End WithNumber.
End Stored.

Section StoredFacts.
Context {N : Number}.

Lemma stored_members_snoc (k : group_id) (docs : list Stored.Payment) (p : Stored.Payment) :
  Stored.members_of k (docs ++ [p])
  = Stored.members_of k docs
    ++ (if group_id_eqb (Stored.id_of p) k then [p] else []).
Proof.
  unfold Stored.members_of. rewrite filter_app. reflexivity.
Qed.

Lemma stored_members_nil (k : group_id) (docs : list Stored.Payment) :
  (forall p, In p docs -> Stored.id_of p <> k) -> Stored.members_of k docs = [].
Proof.
  unfold Stored.members_of. induction docs as [|d docs IH]; simpl; intros H.
  - reflexivity.
  - assert (E : group_id_eqb (Stored.id_of d) k = false)
      by (apply group_id_eqb_neq, H; auto).
    rewrite E. apply IH. intros p Hp. apply H. auto.
Qed.

Lemma stored_accumulate_snoc (l : list num) (a : num) :
  Stored.accumulate (l ++ [a]) = num_add (Stored.accumulate l) a.
Proof.
  unfold Stored.accumulate. rewrite fold_left_app. reflexivity.
Qed.

Lemma stored_group_add_keys (k : group_id) (a : num) (gs : list Stored.Group) :
  (In k (map Stored.g_key gs)
   /\ map Stored.g_key (Stored.group_add k a gs) = map Stored.g_key gs)
  \/ (~ In k (map Stored.g_key gs)
      /\ map Stored.g_key (Stored.group_add k a gs) = map Stored.g_key gs ++ [k]).
Proof.
  induction gs as [|g gs IH]; simpl.
  - right. split; [tauto | reflexivity].
  - destruct (group_id_eqb (Stored.g_key g) k) eqn:E.
    + left. apply group_id_eqb_eq in E. simpl. auto.
    + apply group_id_eqb_neq in E. simpl.
      destruct IH as [[Hin Heq] | [Hnin Heq]]; rewrite Heq.
      * left. auto.
      * right. split; [intros [H | H]; auto | reflexivity].
Qed.

Lemma stored_group_add_In (k : group_id) (a : num) (gs : list Stored.Group)
  (g' : Stored.Group) :
  NoDup (map Stored.g_key gs) ->
  In g' (Stored.group_add k a gs) ->
  (In g' gs /\ Stored.g_key g' <> k)
  \/ (exists g, In g gs /\ Stored.g_key g = k /\
         g' = Stored.mkGroup k (num_add (Stored.g_total g) a) (Stored.g_count g + 1))
  \/ (~ In k (map Stored.g_key gs)
      /\ g' = Stored.mkGroup k (num_add num_zero a) 1).
Proof.
  induction gs as [|g gs IH]; simpl; intros Hnd Hin.
  - destruct Hin as [<- | []]. right. right. split; [tauto | reflexivity].
  - inversion Hnd as [|? ? Hfresh Hnd']; subst.
    destruct (group_id_eqb (Stored.g_key g) k) eqn:E.
    + apply group_id_eqb_eq in E. destruct Hin as [<- | Hin].
      * right. left. exists g. rewrite E. auto.
      * left. split; [auto |]. intros Hk. apply Hfresh.
        rewrite E, <- Hk. apply in_map. exact Hin.
    + apply group_id_eqb_neq in E. destruct Hin as [<- | Hin].
      * left. auto.
      * destruct (IH Hnd' Hin) as [[H1 H2] | [[g0 [H1 [H2 H3]]] | [H1 H2]]].
        -- left. auto.
        -- right. left. exists g0. auto.
        -- right. right. split; [intros [H | H]; auto | exact H2].
Qed.

(** What the [$group] stage holds after the documents [seen]. *)
Record stored_grouped (seen : list Stored.Payment) (gs : list Stored.Group) : Prop := {
  stored_nodup : NoDup (map Stored.g_key gs);
  stored_sums : forall g, In g gs ->
      Stored.g_total g
      = Stored.accumulate (map Stored.amount (Stored.members_of (Stored.g_key g) seen))
      /\ Stored.g_count g
         = Z.of_nat (List.length (Stored.members_of (Stored.g_key g) seen));
  stored_keys : forall k, In k (map Stored.g_key gs)
                          <-> exists p, In p seen /\ Stored.id_of p = k
}.

Lemma stored_grouped_step (seen : list Stored.Payment) (gs : list Stored.Group)
  (p : Stored.Payment) :
  stored_grouped seen gs ->
  stored_grouped (seen ++ [p]) (Stored.group_add (Stored.id_of p) (Stored.amount p) gs).
Proof.
  intros [Hnd Hsum Hids].
  pose proof (stored_group_add_keys (Stored.id_of p) (Stored.amount p) gs) as Hk.
  split.
  - destruct Hk as [[_ ->] | [Hnin ->]]; [exact Hnd |].
    apply NoDup_snoc; assumption.
  - intros g' Hin. rewrite stored_members_snoc.
    destruct (stored_group_add_In _ _ _ _ Hnd Hin)
      as [[H1 H2] | [[g [H1 [H2 H3]]] | [H1 H2]]].
    + assert (E : group_id_eqb (Stored.id_of p) (Stored.g_key g') = false)
        by (apply group_id_eqb_neq; congruence).
      rewrite E, app_nil_r. apply Hsum. exact H1.
    + subst g'. cbn [Stored.g_key Stored.g_total Stored.g_count].
      rewrite group_id_eqb_refl.
      rewrite map_app, length_app, Nat2Z.inj_add. cbn [map List.length].
      rewrite stored_accumulate_snoc.
      destruct (Hsum g H1) as [Ht Hc]. rewrite H2 in Ht, Hc.
      rewrite Ht, Hc. split; [reflexivity | lia].
    + subst g'. cbn [Stored.g_key Stored.g_total Stored.g_count].
      rewrite group_id_eqb_refl.
      assert (E : Stored.members_of (Stored.id_of p) seen = []).
      { apply stored_members_nil. intros q Hq Heq. apply H1, Hids. eauto. }
      rewrite E. split; reflexivity.
  - intros k. split.
    + intros Hin. destruct Hk as [[_ Heq] | [_ Heq]]; rewrite Heq in Hin.
      * apply Hids in Hin. destruct Hin as [q [Hq <-]].
        exists q. split; [apply in_or_app; auto | reflexivity].
      * apply in_app_or in Hin. destruct Hin as [Hin | [<- | []]].
        -- apply Hids in Hin. destruct Hin as [q [Hq <-]].
           exists q. split; [apply in_or_app; auto | reflexivity].
        -- exists p. split; [apply in_or_app; simpl; auto | reflexivity].
    + intros [q [Hq <-]]. apply in_app_or in Hq.
      destruct Hq as [Hq | [<- | []]].
      * assert (In (Stored.id_of q) (map Stored.g_key gs)) by (apply Hids; eauto).
        destruct Hk as [[_ ->] | [_ ->]]; [| apply in_or_app]; auto.
      * destruct Hk as [[H ->] | [_ ->]]; [exact H |].
        apply in_or_app. simpl. auto.
Qed.

Lemma stored_group_all_grouped (docs : list Stored.Payment) :
  stored_grouped docs (Stored.group_all docs).
Proof.
  unfold Stored.group_all.
  induction docs as [|p docs IH] using rev_ind.
  - split; simpl.
    + constructor.
    + intros g [].
    + intros k. split; [intros [] | intros [p [[] _]]].
  - rewrite fold_left_app. simpl. apply stored_grouped_step. exact IH.
Qed.

Lemma stored_key_project (g : Stored.Group) :
  Stored.key_of (Stored.project g) = Stored.g_key g.
Proof.
  unfold Stored.key_of, Stored.project. simpl. destruct (Stored.g_key g); reflexivity.
Qed.

(** The rows of the report, for any number type. *)
Lemma stored_report_rows (docs : list Stored.Payment) (s e : Z) :
  let matched := filter (Stored.matches s e) docs in
  let rows := Stored.report docs s e in
  (forall p, In p matched <->
             In p docs /\ s <= Stored.createdAt p <= e /\ Stored.isDeleted p = false)
  /\ NoDup (map Stored.key_of rows)
  /\ (forall k, In k (map Stored.key_of rows)
                <-> exists p, In p matched /\ Stored.id_of p = k)
  /\ (forall r, In r rows ->
        Stored.totalAmount r
        = Stored.accumulate
            (map Stored.amount (Stored.members_of (Stored.key_of r) matched))
        /\ Stored.transactionCount r
           = Z.of_nat (List.length (Stored.members_of (Stored.key_of r) matched))).
Proof.
  intros matched rows.
  pose proof (stored_group_all_grouped matched) as [Hnd Hsum Hids].
  assert (Hmap : map Stored.key_of rows = map Stored.g_key (Stored.group_all matched)).
  { unfold rows, Stored.report. fold matched.
    rewrite map_map. apply map_ext. exact stored_key_project. }
  split; [| split; [| split]].
  - intros p. unfold matched. rewrite filter_In. unfold Stored.matches.
    rewrite andb_true_iff, in_range_spec, negb_true_iff. tauto.
  - rewrite Hmap. exact Hnd.
  - intros k. rewrite Hmap. apply Hids.
  - intros r Hr. unfold rows, Stored.report in Hr. fold matched in Hr.
    apply in_map_iff in Hr. destruct Hr as [g [<- Hg]].
    rewrite stored_key_project. simpl. apply Hsum. exact Hg.
Qed.

End StoredFacts.

(** * The order of ties in topProducts *)

(** Modelled from the spec: the [$sortArray] operator of the data source,
    which the pipeline calls with [sortBy: {revenue: -1}] and whose code is
    not in this repository. The spec has topProducts "sorted by revenue
    descending - ties broken by original encounter order" and says "Sorting
    must be stable (deterministic tie order)": a stable sort in descending
    order of revenue. *)
Definition spec_sortArray : SortArray := stable_sortArray.

(** The elements of a given revenue. *)
Definition has_revenue (r : Z) (p : SalesReport.product) : bool :=
  SalesReport.revenue p =? r.

Lemma insert_desc_stable (r : Z) (x : SalesReport.product)
  (l : list SalesReport.product) :
  filter (has_revenue r) (insert_desc false x l)
  = if has_revenue r x then x :: filter (has_revenue r) l else filter (has_revenue r) l.
Proof.
  induction l as [|y l IH]; cbn [insert_desc].
  - reflexivity.
  - destruct (SalesReport.revenue y <=? SalesReport.revenue x) eqn:E.
    + reflexivity.
    + cbn [filter]. rewrite IH. apply Z.leb_gt in E. unfold has_revenue in *.
      destruct (SalesReport.revenue x =? r) eqn:Ex; [| reflexivity].
      apply Z.eqb_eq in Ex.
      assert (Ey : (SalesReport.revenue y =? r) = false) by (apply Z.eqb_neq; lia).
      rewrite Ey. reflexivity.
Qed.

(** A stable sort keeps, for each revenue, the elements of that revenue in
    their input order. *)
Lemma isort_desc_stable (r : Z) (l : list SalesReport.product) :
  filter (has_revenue r) (isort_desc false l) = filter (has_revenue r) l.
Proof.
  unfold isort_desc. induction l as [|x l IH]; cbn [fold_right filter].
  - reflexivity.
  - rewrite insert_desc_stable, IH. reflexivity.
Qed.

Lemma filter_split {A : Type} (f : A -> bool) (l m1 m2 : list A) (x : A) :
  filter f l = m1 ++ x :: m2 ->
  exists l1 l2, l = l1 ++ x :: l2 /\ filter f l1 = m1 /\ filter f l2 = m2.
Proof.
  revert m1. induction l as [|y l IH]; intros m1 H; simpl in H.
  - destruct m1; discriminate.
  - destruct (f y) eqn:E.
    + destruct m1 as [|z m1]; simpl in H; inversion H; subst.
      * exists [], l. auto.
      * destruct (IH m1 H2) as [l1 [l2 [Hl [H1' H2']]]].
        exists (z :: l1), l2. simpl. rewrite E, H1', Hl. auto.
    + destruct (IH m1 H) as [l1 [l2 [Hl [H1' H2']]]].
      exists (y :: l1), l2. simpl. rewrite E, Hl. auto.
Qed.

Lemma precedes_filter {A : Type} (f : A -> bool) (a b : A) (l : list A) :
  precedes a b (filter f l) -> precedes a b l.
Proof.
  intros [m1 [m2 [m3 H]]].
  destruct (filter_split f l m1 (m2 ++ b :: m3) a H) as [l1 [l' [Hl [_ Hl']]]].
  destruct (filter_split f l' m2 m3 b Hl') as [l2 [l3 [Hl2 _]]].
  exists l1, l2, l3. rewrite Hl, Hl2. reflexivity.
Qed.

Lemma filter_precedes {A : Type} (f : A -> bool) (a b : A) (l : list A) :
  f a = true -> f b = true -> precedes a b l -> precedes a b (filter f l).
Proof.
  intros Ha Hb [l1 [l2 [l3 ->]]].
  exists (filter f l1), (filter f l2), (filter f l3).
  rewrite filter_app. cbn [filter]. rewrite Ha, filter_app. cbn [filter]. rewrite Hb.
  reflexivity.
Qed.

Lemma precedes_app_l {A : Type} (a b : A) (l l' : list A) :
  precedes a b l -> precedes a b (l ++ l').
Proof.
  intros [l1 [l2 [l3 ->]]]. exists l1, l2, (l3 ++ l').
  rewrite <- !app_assoc. cbn [app]. rewrite <- !app_assoc. reflexivity.
Qed.

(** C4. With the sort of the spec, topProducts is in descending order of
    revenue; line-items of equal revenue keep their encounter order: two that
    follow each other in topProducts followed each other the same way among
    the collected line-items, and for every revenue the listed items of that
    revenue are the first collected ones of that revenue, in that order; it
    has at most 5 elements; and every element is one of the line-items
    collected from the filtered sales of the range. *)
Theorem top_products_stable_sorted_bounded_subset (db : Database) (s e : Z) :
  let top := SalesReport.topProducts (@_get_sales_report spec_sortArray db s e) in
  let all := collected s e (coll_Sale db) in
  StronglySorted revenue_desc top
  /\ ties_in_encounter_order all top
  /\ (forall r, exists later,
        filter (has_revenue r) all = filter (has_revenue r) top ++ later)
  /\ (List.length top <= 5)%nat
  /\ (forall p, In p top -> In p all).
Proof.
  intros top all. unfold top.
  rewrite (@sales_top_products spec_sortArray). fold (collected s e (coll_Sale db)).
  fold all. change (@sortArray spec_sortArray all) with (isort_desc false all).
  assert (Hprefix : forall r, exists later,
            filter (has_revenue r) all
            = filter (has_revenue r) (firstn 5 (isort_desc false all)) ++ later).
  { intros r. exists (filter (has_revenue r) (skipn 5 (isort_desc false all))).
    rewrite <- filter_app, firstn_skipn. symmetry. apply isort_desc_stable. }
  split; [apply StronglySorted_firstn, isort_desc_sorted |].
  split.
  - intros a b _ Hrev Hprec.
    destruct (Hprefix (SalesReport.revenue a)) as [later Hl].
    apply (precedes_filter (has_revenue (SalesReport.revenue a))). rewrite Hl.
    apply precedes_app_l. apply filter_precedes; [| | exact Hprec].
    + unfold has_revenue. apply Z.eqb_refl.
    + unfold has_revenue. apply Z.eqb_eq. symmetry. exact Hrev.
  - split; [exact Hprefix |]. split; [apply firstn_le_length |].
    intros p Hp. apply (Permutation_in p (isort_desc_perm false all)).
    apply In_firstn with 5%nat. exact Hp.
Qed.

(** * Amounts as integers and as doubles *)

Lemma accumulate_integers (l : list Z) : @Stored.accumulate Int_number l = sumZ l.
Proof.
  unfold Stored.accumulate. cbn [num_add num_zero Int_number].
  assert (H : forall a, fold_left Z.add l a = a + sumZ l).
  { induction l as [|x l IH]; intros a; simpl; [lia | rewrite IH; lia]. }
  rewrite H. lia.
Qed.

(** A document with an integer amount, as a document of the pipeline over
    the stored number type. *)
Definition stored_of (p : Payment) : @Stored.Payment Int_number :=
  Stored.mkPayment (p_createdAt p) (p_isDeleted p) (p_method p) (p_isOutgoing p)
                   (p_amount p : @num Int_number).

Definition row_of (r : @Stored.Row Int_number) : PaymentReport.t :=
  PaymentReport.mk (Stored.r_method r) (Stored.r_isOutgoing r)
                   (Stored.totalAmount r) (Stored.transactionCount r).

Definition group_of (g : @Stored.Group Int_number) : PaymentGroup :=
  mkGroup (Stored.g_key g) (Stored.g_total g) (Stored.g_count g).

Lemma group_of_add (k : group_id) (a : Z) (gs : list (@Stored.Group Int_number)) :
  map group_of (@Stored.group_add Int_number k a gs) = group_add k a (map group_of gs).
Proof.
  induction gs as [|g gs IH]; simpl; [reflexivity |].
  destruct (group_id_eqb (Stored.g_key g) k); simpl; [reflexivity | rewrite IH; reflexivity].
Qed.

Lemma group_of_all (docs : list Payment) :
  map group_of (Stored.group_all (map stored_of docs)) = group_payments docs.
Proof.
  unfold Stored.group_all, group_payments.
  change (@nil PaymentGroup) with (map group_of []).
  generalize (@nil (@Stored.Group Int_number)) as gs.
  induction docs as [|p docs IH]; intros gs; simpl; [reflexivity |].
  rewrite IH, group_of_add. reflexivity.
Qed.

(** With integer amounts the pipeline over the stored number type is the
    pipeline of [_get_payment_report]. *)
Lemma stored_report_integers (db : Database) (s e : Z) :
  map row_of (Stored.report (map stored_of (coll_Payment db)) s e)
  = _get_payment_report db s e.
Proof.
  unfold Stored.report, _get_payment_report, payment_pipeline.
  assert (Hf : filter (Stored.matches s e) (map stored_of (coll_Payment db))
               = map stored_of (filter (payment_match s e) (coll_Payment db))).
  { induction (coll_Payment db) as [|p l IH]; simpl; [reflexivity |].
    change (Stored.matches s e (stored_of p)) with (payment_match s e p).
    destruct (payment_match s e p); simpl; rewrite IH; reflexivity. }
  rewrite Hf, map_map, <- group_of_all, map_map. reflexivity.
Qed.

(** C3, as the code has it. For every record set, in integers or in doubles,
    the payment summary has exactly one row per (method, isOutgoing) pair met
    among the records that are not deleted and were created within the
    inclusive range, and no key occurs twice; in each row transactionCount is
    the number of records of the group, and totalAmount is what adding their
    amounts one after the other gives in the number type in which they are
    stored. With integer amounts that is their exact sum, and the pipeline is
    the one of [_get_payment_report] above. *)
Theorem payment_rows_add_up_in_stored_number_type :
  (forall (N : Number) (docs : list (@Stored.Payment N)) (s e : Z),
      let matched := filter (Stored.matches s e) docs in
      let rows := Stored.report docs s e in
      (forall p, In p matched <->
                 In p docs /\ s <= Stored.createdAt p <= e /\ Stored.isDeleted p = false)
      /\ NoDup (map Stored.key_of rows)
      /\ (forall k, In k (map Stored.key_of rows)
                    <-> exists p, In p matched /\ Stored.id_of p = k)
      /\ (forall r, In r rows ->
            Stored.totalAmount r
            = Stored.accumulate
                (map Stored.amount (Stored.members_of (Stored.key_of r) matched))
            /\ Stored.transactionCount r
               = Z.of_nat (List.length (Stored.members_of (Stored.key_of r) matched))))
  /\ (forall (docs : list (@Stored.Payment Int_number)) (s e : Z) (r : @Stored.Row Int_number),
        In r (Stored.report docs s e) ->
        Stored.totalAmount r
        = sumZ (map Stored.amount
                  (Stored.members_of (Stored.key_of r) (filter (Stored.matches s e) docs))))
  /\ (forall (db : Database) (s e : Z),
        map row_of (Stored.report (map stored_of (coll_Payment db)) s e)
        = _get_payment_report db s e).
Proof.
  split; [| split].
  - intros N docs s e. apply stored_report_rows.
  - intros docs s e r Hr.
    destruct (@stored_report_rows Int_number docs s e) as [_ [_ [_ Hsum]]].
    destruct (Hsum r Hr) as [Ht _]. rewrite Ht. apply accumulate_integers.
  - apply stored_report_integers.
Qed.

(** ** Doubles *)

Section DoubleLiterals.
Import PrimFloat.

(** The doubles nearest to 0.1, to 0.2 and to 0.3, and the double that
    prints as 0.30000000000000004, the next one above the last. *)
Definition double_0_1 : float := 0x1.999999999999ap-4%float.
Definition double_0_2 : float := 0x1.999999999999ap-3%float.
Definition double_0_3 : float := 0x1.3333333333333p-2%float.
Definition double_0_30000000000000004 : float := 0x1.3333333333334p-2%float.

End DoubleLiterals.

(** The value of a finite double as a fraction: sign, mantissa and binary
    exponent read off the number. *)
Definition exact_value (f : PrimFloat.float) : option QArith_base.Q :=
  match FloatOps.Prim2SF f with
  | SpecFloat.S754_zero _ => Some (QArith_base.Qmake 0 1)
  | SpecFloat.S754_finite negative m e =>
      let v := if negative then Z.neg m else Z.pos m in
      Some (match e with
            | Z0 => QArith_base.Qmake v 1
            | Zpos k => QArith_base.Qmake (v * 2 ^ Zpos k) 1
            | Zneg k => QArith_base.Qmake v (2 ^ k)
            end)
  | _ => None
  end.

(** The sum of the values of finite doubles, as a fraction. *)
Fixpoint exact_sum (l : list PrimFloat.float) : option QArith_base.Q :=
  match l with
  | [] => Some (QArith_base.Qmake 0 1)
  | f :: rest =>
      match exact_value f, exact_sum rest with
      | Some q, Some t => Some (QArith_base.Qplus q t)
      | _, _ => None
      end
  end.

(** Two incoming cash payments of 0.1 and 0.2, stored as doubles. *)
Definition two_cash_payments : list (@Stored.Payment Double_number) :=
  [ Stored.mkPayment 5 false "cash" false (double_0_1 : @num Double_number);
    Stored.mkPayment 6 false "cash" false (double_0_2 : @num Double_number) ].

(** The claim read on doubles: the value of totalAmount is exactly the sum
    of the values of the amounts of the group. *)
Definition total_is_exact_sum (docs : list (@Stored.Payment Double_number))
  (s e : Z) : Prop :=
  forall r : @Stored.Row Double_number,
    In r (Stored.report docs s e) ->
    exists q t,
      exact_value (Stored.totalAmount r) = Some q
      /\ exact_sum (map Stored.amount
                      (Stored.members_of (Stored.key_of r)
                         (filter (Stored.matches s e) docs))) = Some t
      /\ QArith_base.Qeq q t.

(** C3, as stated, fails on fractional amounts. Two payments of 0.1 and 0.2
    in one group give the single row (cash, incoming, 0.30000000000000004, 2):
    the total is not the double nearest to 0.3, its value is not the sum of
    the values of the two amounts, and it is not 3/10. *)
Lemma payment_total_of_doubles_is_not_exact :
  Stored.report two_cash_payments 0 10
  = [ Stored.mkRow "cash" false (double_0_30000000000000004 : @num Double_number) 2 ]
  /\ double_0_30000000000000004 <> double_0_3
  /\ ~ total_is_exact_sum two_cash_payments 0 10
  /\ (forall q, exact_value double_0_30000000000000004 = Some q ->
                ~ QArith_base.Qeq q (QArith_base.Qmake 3 10)).
Proof.
  assert (Hrep : Stored.report two_cash_payments 0 10
                 = [ Stored.mkRow "cash" false
                       (double_0_30000000000000004 : @num Double_number) 2 ])
    by (vm_compute; reflexivity).
  split; [exact Hrep |]. split; [| split].
  - intros H.
    assert (Hv : exact_value double_0_30000000000000004 = exact_value double_0_3)
      by (rewrite H; reflexivity).
    vm_compute in Hv. discriminate.
  - intros H. unfold total_is_exact_sum in H. rewrite Hrep in H.
    destruct (H _ (or_introl eq_refl)) as [q [t [Hq [Ht Heq]]]].
    vm_compute in Hq, Ht. inversion Hq; inversion Ht; subst.
    vm_compute in Heq. discriminate.
  - intros q Hq. vm_compute in Hq. inversion Hq; subst.
    intros Heq. vm_compute in Heq. discriminate.
Qed.
